(** * Earthquake dashboard: the retrieval routine and the export helper

    A shallow embedding of [streamlit_app/eq_dashboard.py]:
    [retrieve_data_from_usgs_api] (input checks, request URL, status check,
    parsing, the two metrics, the chart, the table, the download link) and
    [get_table_download_link] (CSV serialisation, base64, the anchor tag).

    Conventions of the embedding.
    - A Python [str] is a Rocq [string] holding its UTF-8 bytes, so
      [str.encode()] and [bytes.decode()] change the type, not the bytes.
    - A Python [float] is the rational number it denotes, or NaN.  This is
      an idealisation: the rounding of binary64 arithmetic, its infinities
      and the shortest round-trip text of a float are not modelled, and
      nothing below is a statement about the digits of a computed float.
    - Calls that act on the outside world (the HTTP request and the
      Streamlit widgets) append an [event] to a trace; a raised exception
      keeps the trace written so far.
    - [requests.get] and [pandas.read_csv] are parameters of the model.
    - The script after the two functions is [dashboard]: the page title,
      two blank lines and the call of the routine.  The three sidebar
      widgets are its inputs. *)

From Stdlib Require Import String Ascii List ZArith QArith Qround Bool Lia.
From Stdlib Require Import Permutation DecimalString.
Import ListNotations.

Local Open Scope string_scope.
Local Open Scope Z_scope.

(** ** Characters and strings *)

Definition dquote : ascii := "034"%char.
Definition newline : ascii := "010"%char.
Definition comma : ascii := ","%char.

Definition str1 (c : ascii) : string := String c EmptyString.

(** [sep.join(parts)] *)
Fixpoint join (sep : string) (parts : list string) : string :=
  match parts with
  | [] => ""
  | [p] => p
  | p :: rest => p ++ sep ++ join sep rest
  end.

Fixpoint mem_char (c : ascii) (s : string) : bool :=
  match s with
  | EmptyString => false
  | String d s' => Ascii.eqb c d || mem_char c s'
  end.

Fixpoint starts_with (p s : string) : bool :=
  match p, s with
  | EmptyString, _ => true
  | String a p', String b s' => Ascii.eqb a b && starts_with p' s'
  | String _ _, EmptyString => false
  end.

(** [sub in s] *)
Fixpoint contains (sub s : string) : bool :=
  starts_with sub s ||
  match s with
  | EmptyString => false
  | String _ s' => contains sub s'
  end.

(** ** Numbers as text *)

Definition str_nat (n : nat) : string := NilZero.string_of_uint (Nat.to_uint n).
Definition str_int (z : Z) : string := NilZero.string_of_int (Z.to_int z).

Fixpoint zeros (n : nat) : string :=
  match n with
  | O => ""
  | S n' => String "0" (zeros n')
  end.

(** [%0<w>d] for a natural number *)
Definition zero_pad (w : nat) (n : nat) : string :=
  let s := str_nat n in zeros (w - String.length s) ++ s.

(** ** Floats *)

Inductive pyfloat : Type :=
| FNum (q : Q)
| FNaN.

Definition digit_char (d : Z) : ascii := ascii_of_N (48 + Z.to_N d).

(** The digits after the decimal point of [r / d], at most [fuel] of them
    and at least one. *)
Fixpoint frac_digits (fuel : nat) (r d : Z) : string :=
  match fuel with
  | O => ""
  | S fuel' =>
      let r10 := r * 10 in
      String (digit_char (r10 / d))
             (if r10 mod d =? 0 then "" else frac_digits fuel' (r10 mod d) d)
  end.

(** [repr(x)] in positional notation, which is what Python prints for a
    value of magnitude between 1e-4 and 1e16; the decimal expansion is cut
    after 17 fractional digits. *)
Definition repr_float (x : pyfloat) : string :=
  match x with
  | FNaN => "nan"
  | FNum q =>
      let a := Z.abs (Qnum q) in
      let d := Z.pos (Qden q) in
      (if Qnum q <? 0 then "-" else "") ++
      str_int (a / d) ++ "." ++ frac_digits 17 (a mod d) d
  end.

(** ** Calendar dates *)

Record date : Type := mkdate { year : nat; month : nat; day : nat }.

(** [date.isoformat()], which is also [str(date)] and [format(date, '')] *)
Definition isoformat (d : date) : string :=
  zero_pad 4 (year d) ++ "-" ++ zero_pad 2 (month d) ++ "-" ++ zero_pad 2 (day d).


(** ** Data frames *)

(** A column has one dtype.  A missing cell is [FNaN] in a float column and
    [None] in an object column; an integer column has no missing cell. *)
Inductive column : Type :=
| FloatCol (xs : list pyfloat)
| IntCol (xs : list Z)
| ObjCol (xs : list (option string)).

(** The columns in file order, each with its name. *)
Definition DataFrame : Type := list (string * column).

Definition col_len (c : column) : nat :=
  match c with
  | FloatCol xs => length xs
  | IntCol xs => length xs
  | ObjCol xs => length xs
  end.

Definition columns (df : DataFrame) : list string := map fst df.

(** [len(df)]: the number of rows *)
Definition len (df : DataFrame) : nat :=
  match df with
  | [] => O
  | (_, c) :: _ => col_len c
  end.

Fixpoint get_col (name : string) (df : DataFrame) : option column :=
  match df with
  | [] => None
  | (n, c) :: rest => if String.eqb n name then Some c else get_col name rest
  end.

Definition has_col (name : string) (df : DataFrame) : bool :=
  match get_col name df with Some _ => true | None => false end.

(** ** Exceptions *)

Inductive exn : Type :=
| AssertionError (msg : option string)
| AttributeError (name : string)
| KeyError (key : string)
| ValueError
| TypeError
| EmptyDataError
| ParserError
| ConnectionError.

Inductive result (A : Type) : Type :=
| Return (a : A)
| Raise (e : exn).
Arguments Return {A} a.
Arguments Raise {A} e.

(** ** Statistics *)

Local Open Scope Q_scope.

Definition Qsum (qs : list Q) : Q := fold_right Qplus 0 qs.

(** The cells of a float column that are not NaN. *)
Fixpoint present (xs : list pyfloat) : list Q :=
  match xs with
  | [] => []
  | FNum q :: rest => q :: present rest
  | FNaN :: rest => present rest
  end.

(** The arithmetic mean of a list of numbers; NaN when there is none
    (pandas tests [count > 0] before dividing). *)
Definition mean_of (qs : list Q) : pyfloat :=
  match qs with
  | [] => FNaN
  | _ => FNum (Qsum qs / inject_Z (Z.of_nat (length qs)))
  end.

Definition is_none (o : option string) : bool :=
  match o with None => true | Some _ => false end.

(** [Series.mean()], with the default [skipna=True].  Text cannot be
    summed: an object column that holds a string raises. *)
Definition mean (c : column) : result pyfloat :=
  match c with
  | FloatCol xs => Return (mean_of (present xs))
  | IntCol xs => Return (mean_of (map inject_Z xs))
  | ObjCol xs => if forallb is_none xs then Return FNaN else Raise TypeError
  end.

(** Round to the nearest integer, a tie to the even one. *)
Definition rint (q : Q) : Z :=
  let f := Qfloor q in
  match Qcompare (q - inject_Z f) (1 # 2) with
  | Lt => f
  | Gt => (f + 1)%Z
  | Eq => if Z.even f then f else (f + 1)%Z
  end.

(** [np.round(x, 2)]: scale by 100, round to an integer, scale back. *)
Definition np_round2 (x : pyfloat) : pyfloat :=
  match x with
  | FNaN => FNaN
  | FNum q => FNum (Qred (rint (q * 100) # 100))
  end.

Local Close Scope Q_scope.

(** ** CSV serialisation: [df.to_csv(index=False)] *)

(** The csv writer quotes a field that holds the delimiter, the quote
    character or a character of the line terminator, here the line feed
    (QUOTE_MINIMAL). *)
Definition needs_quote (s : string) : bool :=
  mem_char comma s || mem_char dquote s || mem_char newline s.

Fixpoint double_quotes (s : string) : string :=
  match s with
  | EmptyString => EmptyString
  | String c s' =>
      if Ascii.eqb c dquote
      then String dquote (String dquote (double_quotes s'))
      else String c (double_quotes s')
  end.

Definition csv_field (s : string) : string :=
  if needs_quote s
  then String dquote (double_quotes s ++ str1 dquote)
  else s.

(** One record of the file, without its line terminator.  A record made of
    a single empty field is written as a pair of quotes. *)
Definition csv_record (fields : list string) : string :=
  match fields with
  | [EmptyString] => String dquote (str1 dquote)
  | _ => join "," (map csv_field fields)
  end.

(** The text of every cell of a column; a missing value is the empty
    text ([na_rep='']). *)
Definition cell_texts (c : column) : list string :=
  match c with
  | FloatCol xs =>
      map (fun x => match x with FNaN => "" | FNum _ => repr_float x end) xs
  | IntCol xs => map str_int xs
  | ObjCol xs => map (fun o => match o with None => "" | Some s => s end) xs
  end.

Definition row_texts (df : DataFrame) (i : nat) : list string :=
  map (fun nc => nth i (cell_texts (snd nc)) "") df.

Definition csv_records (df : DataFrame) : list (list string) :=
  columns df :: map (row_texts df) (seq 0 (len df)).

(** The header, then one record per row, each ended by the line separator
    (a line feed here). *)
Definition to_csv (df : DataFrame) : string :=
  String.concat "" (map (fun r => csv_record r ++ str1 newline) (csv_records df)).

(** ** Base64 *)

Definition bytes : Type := list ascii.

(** [str.encode()] and [bytes.decode()] *)
Definition encode (s : string) : bytes := list_ascii_of_string s.
Definition decode (b : bytes) : string := string_of_list_ascii b.

Local Open Scope N_scope.

Definition b64_alphabet : string :=
  "ABCDEFGHIJKLMNOPQRSTUVWXYZabcdefghijklmnopqrstuvwxyz0123456789+/".

Definition b64_pad : ascii := "="%char.

Definition b64_char (n : N) : ascii :=
  match String.get (N.to_nat n) b64_alphabet with
  | Some c => c
  | None => b64_pad
  end.

Fixpoint index_from (i : N) (c : ascii) (s : string) : option N :=
  match s with
  | EmptyString => None
  | String d s' => if Ascii.eqb c d then Some i else index_from (i + 1) c s'
  end.

Definition b64_index (c : ascii) : option N := index_from 0 c b64_alphabet.

(** The four 6-bit numbers that three bytes [x], [y], [z] are cut into. *)
Definition sextet1 (x : N) : N := N.shiftr x 2.
Definition sextet2 (x y : N) : N := N.lor (N.shiftl (N.land x 3) 4) (N.shiftr y 4).
Definition sextet3 (y z : N) : N := N.lor (N.shiftl (N.land y 15) 2) (N.shiftr z 6).
Definition sextet4 (z : N) : N := N.land z 63.

(** [base64.b64encode]: three bytes become four characters; a last group
    of one or two bytes is completed with zero bits and padded with [=]. *)
Fixpoint b64encode (bs : bytes) : bytes :=
  match bs with
  | [] => []
  | [a] =>
      let x := N_of_ascii a in
      [b64_char (sextet1 x); b64_char (sextet2 x 0); b64_pad; b64_pad]
  | [a; b] =>
      let x := N_of_ascii a in
      let y := N_of_ascii b in
      [b64_char (sextet1 x); b64_char (sextet2 x y);
       b64_char (sextet3 y 0); b64_pad]
  | a :: b :: c :: rest =>
      let x := N_of_ascii a in
      let y := N_of_ascii b in
      let z := N_of_ascii c in
      b64_char (sextet1 x)
      :: b64_char (sextet2 x y)
      :: b64_char (sextet3 y z)
      :: b64_char (sextet4 z)
      :: b64encode rest
  end.

Definition byte1 (s0 s1 : N) : ascii :=
  ascii_of_N (N.lor (N.shiftl s0 2) (N.shiftr s1 4)).
Definition byte2 (s1 s2 : N) : ascii :=
  ascii_of_N (N.lor (N.shiftl (N.land s1 15) 4) (N.shiftr s2 2)).
Definition byte3 (s2 s3 : N) : ascii :=
  ascii_of_N (N.lor (N.shiftl (N.land s2 3) 6) s3).

(** [base64.b64decode(s, validate=True)]: the inverse, defined on padded
    text over the alphabet. *)
Fixpoint b64decode (cs : bytes) : option bytes :=
  match cs with
  | [] => Some []
  | c0 :: c1 :: c2 :: c3 :: rest =>
      match b64_index c0, b64_index c1 with
      | Some s0, Some s1 =>
          if Ascii.eqb c3 b64_pad then
            match rest with
            | [] =>
                if Ascii.eqb c2 b64_pad then Some [byte1 s0 s1]
                else
                  match b64_index c2 with
                  | Some s2 => Some [byte1 s0 s1; byte2 s1 s2]
                  | None => None
                  end
            | _ :: _ => None
            end
          else
            match b64_index c2, b64_index c3, b64decode rest with
            | Some s2, Some s3, Some tl =>
                Some (byte1 s0 s1 :: byte2 s1 s2 :: byte3 s2 s3 :: tl)
            | _, _, _ => None
            end
      | _, _ => None
      end
  | _ => None
  end.

Local Close Scope N_scope.

(** Every byte, for the facts about base64 that are checked byte by byte. *)
Definition all_bytes : list ascii := map ascii_of_nat (seq 0 256).

Definition index_is (o : option N) (n : N) : bool :=
  match o with
  | Some k => N.eqb k n
  | None => false
  end.

(** What is checked of one byte, and of two bytes next to each other. *)
Definition byte_check (a : ascii) : bool :=
  let x := N_of_ascii a in
  index_is (b64_index (b64_char (sextet1 x))) (sextet1 x) &&
  negb (Ascii.eqb (b64_char (sextet1 x)) dquote) &&
  index_is (b64_index (b64_char (sextet4 x))) (sextet4 x) &&
  negb (Ascii.eqb (b64_char (sextet4 x)) b64_pad) &&
  negb (Ascii.eqb (b64_char (sextet4 x)) dquote) &&
  Ascii.eqb (ascii_of_N (N.lor (N.shiftl (N.shiftr x 4) 4) (N.land x 15))) a.

Definition pair_check (a b : ascii) : bool :=
  let x := N_of_ascii a in
  let y := N_of_ascii b in
  index_is (b64_index (b64_char (sextet2 x y))) (sextet2 x y) &&
  negb (Ascii.eqb (b64_char (sextet2 x y)) dquote) &&
  index_is (b64_index (b64_char (sextet3 x y))) (sextet3 x y) &&
  negb (Ascii.eqb (b64_char (sextet3 x y)) b64_pad) &&
  negb (Ascii.eqb (b64_char (sextet3 x y)) dquote) &&
  Ascii.eqb (byte1 (sextet1 x) (sextet2 x y)) a &&
  Ascii.eqb (byte3 (sextet3 x y) (sextet4 y)) b &&
  N.eqb (N.land (sextet2 x y) 15) (N.shiftr y 4) &&
  N.eqb (N.shiftr (sextet3 x y) 2) (N.land x 15).

(** ** The export helper *)

Definition link_prefix : string :=
  "<a href=" ++ str1 dquote ++ "data:file/csv;base64,".
Definition link_suffix : string :=
  str1 dquote ++ ">Download CSV file</a>".

Definition get_table_download_link (df : DataFrame) : string :=
  let csv := to_csv df in
  let b64 := decode (b64encode (encode csv)) in
  let href := link_prefix ++ b64 ++ link_suffix in
  href.

(** Reading a link back: the text between the prefix and the quote that
    closes the [href] attribute. *)
Fixpoint strip_prefix (p s : string) : option string :=
  match p, s with
  | EmptyString, _ => Some s
  | String a p', String b s' =>
      if Ascii.eqb a b then strip_prefix p' s' else None
  | String _ _, EmptyString => None
  end.

Fixpoint take_until (c : ascii) (s : string) : string :=
  match s with
  | EmptyString => EmptyString
  | String d s' => if Ascii.eqb d c then EmptyString else String d (take_until c s')
  end.

Definition link_payload (href : string) : option string :=
  match strip_prefix link_prefix href with
  | Some rest => Some (take_until dquote rest)
  | None => None
  end.

(** ** Python values that can reach the routine as arguments *)

Inductive pyval : Type :=
| PyNone
| PyBool (b : bool)
| PyInt (n : Z)
| PyFloat (x : pyfloat)
| PyStr (s : string)
| PyDate (d : date).

(** [bool(v)], the test made by [if v:] *)
Definition truthy (v : pyval) : bool :=
  match v with
  | PyNone => false
  | PyBool b => b
  | PyInt n => negb (n =? 0)
  | PyFloat (FNum q) => negb (Qnum q =? 0)
  | PyFloat FNaN => true
  | PyStr s => negb (String.eqb s "")
  | PyDate _ => true
  end.

Definition isinstance_date (v : pyval) : bool :=
  match v with PyDate _ => true | _ => false end.

Definition isinstance_float (v : pyval) : bool :=
  match v with PyFloat _ => true | _ => false end.

(** [bool] is a subclass of [int]. *)
Definition isinstance_int (v : pyval) : bool :=
  match v with PyInt _ | PyBool _ => true | _ => false end.

(** The text an f-string puts in place of [{v}] *)
Definition format_value (v : pyval) : string :=
  match v with
  | PyNone => "None"
  | PyBool true => "True"
  | PyBool false => "False"
  | PyInt n => str_int n
  | PyFloat x => repr_float x
  | PyStr s => s
  | PyDate d => isoformat d
  end.

(** ** The outside world *)

Record response : Type := mkresponse { status_code : Z; text : string }.

Record figure : Type := mkfigure {
  fig_lat : column;
  fig_lon : column;
  fig_size : column;
  fig_custom_data : list column;
  fig_hovertemplate : string
}.

Inductive event : Type :=
| RequestsGet (url : string)
| StColumns (n : nat)
| StMetric (label : string) (value : pyval)
| StWrite (body : string)
| StPlotlyChart (fig : figure)
| StDataframe (df : DataFrame)
| StMarkdown (body : string).

(** ** A monad for effects and exceptions

    A computation extends the trace and either returns or raises.  What was
    written before an exception stays written. *)

Definition M (A : Type) : Type := list event -> list event * result A.

Definition ret {A : Type} (a : A) : M A := fun t => (t, Return a).

Definition bind {A B : Type} (c : M A) (k : A -> M B) : M B :=
  fun t =>
    match c t with
    | (t', Return a) => k a t'
    | (t', Raise e) => (t', Raise e)
    end.

Definition raise {A : Type} (e : exn) : M A := fun t => (t, Raise e).

Definition emit (e : event) : M unit := fun t => ((t ++ [e])%list, Return tt).

Definition lift {A : Type} (r : result A) : M A := fun t => (t, r).

Declare Scope py_scope.
Delimit Scope py_scope with py.
Notation "x <- c ;; k" := (bind c (fun x => k))
  (at level 61, c at next level, right associativity) : py_scope.
Notation "c ;; k" := (bind c (fun _ => k))
  (at level 61, right associativity) : py_scope.

(** [assert cond, msg] *)
Definition assert_ (cond : bool) (msg : option string) : M unit :=
  if cond then ret tt else raise (AssertionError msg).

Definition run {A : Type} (c : M A) : list event * result A := c [].
Definition trace_of {A : Type} (c : M A) : list event := fst (run c).
Definition outcome_of {A : Type} (c : M A) : result A := snd (run c).

(** ** Operations on data frames used by the routine *)

(** [df.name] *)
Definition getattr (df : DataFrame) (name : string) : result column :=
  match get_col name df with
  | Some c => Return c
  | None => Raise (AttributeError name)
  end.

(** [df[name]] *)
Definition getitem (df : DataFrame) (name : string) : result column :=
  match get_col name df with
  | Some c => Return c
  | None => Raise (KeyError name)
  end.

(** [df[[n1, n2, ...]]]: the named columns, in the order asked for.  The
    exception carries the first name that is not a column (pandas lists
    every such name in its message). *)
Fixpoint select (df : DataFrame) (names : list string) : result DataFrame :=
  match names with
  | [] => Return []
  | n :: rest =>
      match get_col n df with
      | None => Raise (KeyError n)
      | Some c =>
          match select df rest with
          | Return cols => Return ((n, c) :: cols)
          | Raise e => Raise e
          end
      end
  end.

Definition square (x : pyfloat) : pyfloat :=
  match x with
  | FNum q => FNum (q * q)%Q
  | FNaN => FNaN
  end.

(** Arithmetic on an int64 column wraps around. *)
Definition int64_wrap (z : Z) : Z := (z + 2 ^ 63) mod 2 ^ 64 - 2 ^ 63.

(** [series ** 2] *)
Definition pow2 (c : column) : result column :=
  match c with
  | FloatCol xs => Return (FloatCol (map square xs))
  | IntCol xs => Return (IntCol (map (fun n => int64_wrap (n * n)) xs))
  | ObjCol xs => if forallb is_none xs then Return (ObjCol xs) else Raise TypeError
  end.

Definition is_number (x : pyfloat) : bool :=
  match x with FNum _ => true | FNaN => false end.

(** The marker sizes have to be a numeric column of numbers that are not
    negative: NaN is refused, so is a square that wrapped around to a
    negative integer, and so is an object column, the one of a body with a
    header and no record included.  The square of a float is never
    negative, so what is left to test there is NaN. *)
Definition valid_sizes (size : column) : bool :=
  match size with
  | FloatCol xs => forallb is_number xs
  | IntCol xs => forallb (fun n => 0 <=? n) xs
  | ObjCol _ => false
  end.

(** [px.scatter_geo(data_frame=df, lat=, lon=, size=, custom_data=)]: a
    column named by a string has to be in the frame and the sizes have to
    be valid, else [ValueError]. *)
Definition scatter_geo (df : DataFrame) (lat lon : string) (size : column)
    (custom_data : list string) : result figure :=
  match get_col lat df, get_col lon df, select df custom_data with
  | Some la, Some lo, Return cd =>
      if valid_sizes size
      then Return (mkfigure la lo size (map snd cd) "")
      else Raise ValueError
  | _, _, _ => Raise ValueError
  end.

(** [fig.update_traces(hovertemplate=t)] *)
Definition update_traces (fig : figure) (t : string) : figure :=
  mkfigure (fig_lat fig) (fig_lon fig) (fig_size fig) (fig_custom_data fig) t.

(** ** The retrieval routine *)

Definition endpoint : string :=
  "https://earthquake.usgs.gov/fdsnws/event/1/query".

Definition min_mag_message : string :=
  "min_mag parameter should be a float or int number.".

Definition request_message : string :=
  "There was a problem with the request. Try again or check the status of the USGS API.".

Definition displayed_columns : list string :=
  ["place"; "latitude"; "longitude"; "mag"; "depth"].

(** The specification names four kinds of error; the program raises Python
    exceptions.  This is the kind each exception of the routine stands for:
    the assertions on the arguments, the assertion on the status (told apart
    by its message) and a failed connection, and everything raised while the
    body is read and used. *)
Inductive error_kind : Type :=
| InvalidParameterError
| RemoteRequestError
| ParseError
| NoDataError.

Definition error_kind_of (e : exn) : error_kind :=
  match e with
  | AssertionError None => InvalidParameterError
  | AssertionError (Some m) =>
      if String.eqb m request_message then RemoteRequestError
      else InvalidParameterError
  | ConnectionError => RemoteRequestError
  | AttributeError _ | KeyError _ | ValueError | TypeError
  | EmptyDataError | ParserError => ParseError
  end.

(** The request string of lines 47-50. *)
Definition request_text (start_date end_date min_mag : pyval) : string :=
  if truthy min_mag then
    endpoint ++ "?format=csv&starttime=" ++ format_value start_date ++
    "&endtime=" ++ format_value end_date ++
    "&minmagnitude=" ++ format_value min_mag
  else
    endpoint ++ "?format=csv&starttime=" ++ format_value start_date ++
    "&endtime=" ++ format_value end_date.

(** The value shown as the average magnitude (line 65). *)
Definition mean_magnitude (df : DataFrame) : result pyfloat :=
  match getattr df "mag" with
  | Raise e => Raise e
  | Return mag =>
      match mean mag with
      | Raise e => Raise e
      | Return m => Return (np_round2 m)
      end
  end.

Section Routine.

  (** [requests.get]: what the network answers to a URL. *)
  Variable requests_get : string -> result response.

  (** [pd.read_csv] on the text of a response. *)
  Variable read_csv : string -> result DataFrame.

  Local Open Scope py_scope.

Definition retrieve_data_from_usgs_api (start_date end_date min_mag : pyval)
  : M (option DataFrame) :=
  assert_ (isinstance_date start_date) None ;;
  assert_ (isinstance_date end_date) None ;;
  (if truthy min_mag
   then assert_ (isinstance_float min_mag || isinstance_int min_mag)
                (Some min_mag_message)
   else ret tt) ;;
  let req_txt := request_text start_date end_date min_mag in
  emit (RequestsGet req_txt) ;;
  response <- lift (requests_get req_txt) ;;
  assert_ (status_code response =? 200) (Some request_message) ;;
  eq_df <- lift (read_csv (text response)) ;;
  emit (StColumns 2) ;;
  emit (StMetric "Number of Earthquakes" (PyInt (Z.of_nat (len eq_df)))) ;;
  avg <- lift (mean_magnitude eq_df) ;;
  emit (StMetric "Average Mag of Earthquakes" (PyFloat avg)) ;;
  emit (StWrite "") ;;
  emit (StWrite "") ;;
  mag <- lift (getitem eq_df "mag") ;;
  size <- lift (pow2 mag) ;;
  fig <- lift (scatter_geo eq_df "latitude" "longitude" size ["place"; "mag"]) ;;
  let fig := update_traces fig
               (join "<br>" ["Place: %{customdata[0]}";
                             "Magnitude: %{customdata[1]}"]) in
  emit (StPlotlyChart fig) ;;
  shown <- lift (select eq_df displayed_columns) ;;
  emit (StDataframe shown) ;;
  emit (StMarkdown (get_table_download_link eq_df)) ;;
  ret None.

End Routine.

(** Lines 62-95 of the routine on their own: what is done with the parsed
    frame.  Used to state what a run amounts to once the body is read. *)
Definition render (eq_df : DataFrame) : M (option DataFrame) :=
  (emit (StColumns 2) ;;
   emit (StMetric "Number of Earthquakes" (PyInt (Z.of_nat (len eq_df)))) ;;
   avg <- lift (mean_magnitude eq_df) ;;
   emit (StMetric "Average Mag of Earthquakes" (PyFloat avg)) ;;
   emit (StWrite "") ;;
   emit (StWrite "") ;;
   mag <- lift (getitem eq_df "mag") ;;
   size <- lift (pow2 mag) ;;
   fig <- lift (scatter_geo eq_df "latitude" "longitude" size ["place"; "mag"]) ;;
   emit (StPlotlyChart
           (update_traces fig
              (join "<br>" ["Place: %{customdata[0]}";
                            "Magnitude: %{customdata[1]}"]))) ;;
   shown <- lift (select eq_df displayed_columns) ;;
   emit (StDataframe shown) ;;
   emit (StMarkdown (get_table_download_link eq_df)) ;;
   ret None)%py.


(** The three checks of lines 41-44 taken together. *)
Definition arguments_accepted (start_date end_date min_mag : pyval) : bool :=
  isinstance_date start_date && isinstance_date end_date &&
  (negb (truthy min_mag) || isinstance_float min_mag || isinstance_int min_mag).

(** ** Reading a request URL back *)

(** [s.split(c)] *)
Fixpoint split_on (c : ascii) (s : string) : list string :=
  match s with
  | EmptyString => [EmptyString]
  | String d s' =>
      if Ascii.eqb d c then EmptyString :: split_on c s'
      else
        match split_on c s' with
        | h :: t => String d h :: t
        | [] => [String d EmptyString]
        end
  end.

(** [s.partition(c)] without the separator: the text before the first [c]
    and the text after it. *)
Fixpoint partition (c : ascii) (s : string) : string * string :=
  match s with
  | EmptyString => (EmptyString, EmptyString)
  | String d s' =>
      if Ascii.eqb d c then (EmptyString, s')
      else let (h, t) := partition c s' in (String d h, t)
  end.

(** The parameters of the query part of a URL, in order. *)
Definition query_params (url : string) : list (string * string) :=
  map (partition "=") (split_on "&" (snd (partition "?" url))).

(** A character that does not cut a URL or its query: none of [?], [&]
    and [=]. *)
Definition plain_char (c : ascii) : bool :=
  negb (Ascii.eqb c "?" || Ascii.eqb c "&" || Ascii.eqb c "=").

Fixpoint all_chars (p : ascii -> bool) (s : string) : bool :=
  match s with
  | EmptyString => true
  | String c s' => p c && all_chars p s'
  end.

(** A computation only adds to the trace. *)
Definition extends {A : Type} (c : M A) : Prop :=
  forall t, exists tr, fst (c t) = (t ++ tr)%list.

(** ** The words of the specification *)

(** The reading of "malformed input" in the specification: a date argument
    that is not a date, or a magnitude that is given (not [None]) and is
    neither an integer nor a float holding a number. *)
Definition is_real_number (v : pyval) : bool :=
  match v with
  | PyInt _ | PyFloat (FNum _) => true
  | _ => false
  end.

Definition malformed (s e m : pyval) : bool :=
  negb (isinstance_date s) || negb (isinstance_date e) ||
  match m with
  | PyNone => false
  | _ => negb (is_real_number m)
  end.

(** A list of column names holds every name of another and one more. *)
Definition strict_superset (big small : list string) : Prop :=
  incl small big /\ ~ incl big small.

(** ** Sample data *)

Definition jan_1 : date := mkdate 2024 1 1.
Definition jan_2 : date := mkdate 2024 1 2.

Definition three_quakes : DataFrame :=
  [("time", ObjCol [Some "2024-01-01T03:10:00.000Z";
                    Some "2024-01-01T11:42:10.000Z";
                    Some "2024-01-02T20:05:31.000Z"]);
   ("latitude", FloatCol [FNum (3741 # 100); FNum (-55 # 10); FNum (36 # 1)]);
   ("longitude", FloatCol [FNum (13725 # 100); FNum (15203 # 100); FNum (-12 # 1)]);
   ("depth", IntCol [10; 35; 12]);
   ("mag", FloatCol [FNum (51 # 10); FNum (62 # 10); FNum (55 # 10)]);
   ("place", ObjCol [Some "42 km NE of Anamizu, Japan";
                     Some "Papua New Guinea"; Some "Alboran Sea"])].

Definition five_columns : DataFrame :=
  [("place", ObjCol [Some "Alboran Sea"]);
   ("latitude", FloatCol [FNum (36 # 1)]);
   ("longitude", FloatCol [FNum (-12 # 1)]);
   ("mag", FloatCol [FNum (55 # 10)]);
   ("depth", IntCol [12])].


Definition answer_with (status : Z) (body : string) (url : string)
  : result response := Return (mkresponse status body).

Definition parse_as (df : DataFrame) (body : string) : result DataFrame :=
  Return df.

(** ** The page

    The script under the two functions writes the title and two blank
    lines, reads three widgets of the sidebar and calls the routine with
    what they hold.  The widgets are inputs here: a date input holds a date
    and the slider holds a float. *)

Definition page_title : string :=
  str1 newline ++
  "    # Earthquake Exploration Dashboard" ++ str1 newline ++
  "    ## USGS API Data" ++ str1 newline ++
  str1 newline ++
  "    This dashboard can be used to explore and investigate earthquake data retrieved from the USGS API service." ++ str1 newline ++
  "    Use the input parameters on the left to adjust the date range and minimum magnitude to display earthquakes around the world! " ++ str1 newline ++
  "    ".

Definition dashboard (requests_get : string -> result response)
    (read_csv : string -> result DataFrame)
    (start_date end_date : date) (mag : pyfloat) : M (option DataFrame) :=
  (emit (StWrite page_title) ;;
   emit (StWrite "") ;;
   emit (StWrite "") ;;
   retrieve_data_from_usgs_api requests_get read_csv
     (PyDate start_date) (PyDate end_date) (PyFloat mag))%py.

(** ** Looking at a trace *)

Definition is_request (ev : event) : bool :=
  match ev with RequestsGet _ => true | _ => false end.

Definition is_table (ev : event) : bool :=
  match ev with StDataframe _ => true | _ => false end.

Definition is_link (ev : event) : bool :=
  match ev with StMarkdown _ => true | _ => false end.

Definition count_requests (tr : list event) : nat :=
  length (filter is_request tr).

(** A computation adds to the trace only events that satisfy [p]. *)
Definition emits_only {A : Type} (p : event -> bool) (c : M A) : Prop :=
  forall t, exists tr, fst (c t) = (t ++ tr)%list /\ forallb p tr = true.

(** What a computation does from a trace [t] is what it does from the
    empty trace, written after [t]. *)
Definition framed {A : Type} (c : M A) : Prop :=
  forall t, c t = ((t ++ fst (c []))%list, snd (c [])).

(** Every column of the frame has the same number of cells. *)
Definition rectangular (df : DataFrame) : Prop :=
  exists n, Forall (fun nc => col_len (snd nc) = n) df.

(** A character of base64 text: one of the alphabet, or the padding. *)
Definition b64_text_char (c : ascii) : bool :=
  mem_char c b64_alphabet || Ascii.eqb c b64_pad.

(** ** Reading CSV text back

    A reader for comma-separated text with double-quoted fields, as a
    machine over four states.  It is what the export is read back with. *)




(** * Properties *)

(** ** Running the routine *)

Ltac step_routine :=
  unfold run, retrieve_data_from_usgs_api, bind, assert_, ret, raise, emit, lift;
  simpl.

Lemma arguments_accepted_inv (s e m : pyval) :
  arguments_accepted s e m = true ->
  isinstance_date s = true /\ isinstance_date e = true /\
  (truthy m = true -> (isinstance_float m || isinstance_int m) = true).
Proof.
  unfold arguments_accepted. intros H.
  apply andb_true_iff in H. destruct H as [H Hm].
  apply andb_true_iff in H. destruct H as [Hs He].
  repeat split; trivial.
  intros Ht. rewrite Ht in Hm. simpl in Hm. exact Hm.
Qed.

Section RoutineFacts.

  Variable requests_get : string -> result response.
  Variable read_csv : string -> result DataFrame.

Let fetch := retrieve_data_from_usgs_api requests_get read_csv.

  (** Arguments that fail a check stop the routine on an empty trace. *)
Lemma run_rejected (s e m : pyval) :
  arguments_accepted s e m = false ->
  run (fetch s e m) =
    ([], Raise (AssertionError
                  (if isinstance_date s && isinstance_date e
                   then Some min_mag_message else None))).
Proof.
  unfold fetch, arguments_accepted. intros H. step_routine.
  destruct (isinstance_date s); simpl in *; [| reflexivity].
  destruct (isinstance_date e); simpl in *; [| reflexivity].
  destruct (truthy m); simpl in *; [| discriminate].
  rewrite H. reflexivity.
Qed.

  (** Accepted arguments lead to exactly one request; a failed connection
      ends the routine there. *)
Lemma run_connection_failed (s e m : pyval) (ex : exn) :
  arguments_accepted s e m = true ->
  requests_get (request_text s e m) = Raise ex ->
  run (fetch s e m) = ([RequestsGet (request_text s e m)], Raise ex).
Proof.
  intros Hok Hnet. apply arguments_accepted_inv in Hok.
  destruct Hok as (Hs & He & Hm).
  unfold fetch. step_routine. rewrite Hs, He. simpl.
  destruct (truthy m) eqn:Ht; simpl.
  - rewrite (Hm eq_refl). simpl. rewrite Hnet. reflexivity.
  - rewrite Hnet. reflexivity.
Qed.

Lemma run_answered (s e m : pyval) (resp : response) :
  arguments_accepted s e m = true ->
  requests_get (request_text s e m) = Return resp ->
  run (fetch s e m) =
    if status_code resp =? 200 then
      match read_csv (text resp) with
      | Return eq_df => render eq_df [RequestsGet (request_text s e m)]
      | Raise ex => ([RequestsGet (request_text s e m)], Raise ex)
      end
    else ([RequestsGet (request_text s e m)],
          Raise (AssertionError (Some request_message))).
Proof.
  intros Hok Hnet. apply arguments_accepted_inv in Hok.
  destruct Hok as (Hs & He & Hm).
  unfold fetch, render. step_routine. rewrite Hs, He. simpl.
  destruct (truthy m) eqn:Ht; [rewrite (Hm eq_refl) |]; simpl; rewrite Hnet;
    (destruct (status_code resp =? 200); [| reflexivity]);
    destruct (read_csv (text resp)); reflexivity.
Qed.

End RoutineFacts.

(** ** Status of the response *)

(** C7. Whatever the arguments accepted by the checks, if the answer to the
    request has a status other than 200 the routine raises the assertion
    error of line 56, which stands for [RemoteRequestError]; the trace holds
    the request and nothing else (no metric, chart, table or link), and
    nothing is returned.  The parser plays no part in the result. *)
Theorem non_200_raises_remote_request_error :
  forall (requests_get : string -> result response)
         (read_csv : string -> result DataFrame)
         (s e m : pyval) (resp : response),
    arguments_accepted s e m = true ->
    requests_get (request_text s e m) = Return resp ->
    status_code resp <> 200 ->
    run (retrieve_data_from_usgs_api requests_get read_csv s e m) =
      ([RequestsGet (request_text s e m)],
       Raise (AssertionError (Some request_message))) /\
    error_kind_of (AssertionError (Some request_message)) = RemoteRequestError.
Proof.
  intros net rc s e m resp Hok Hnet Hstatus. split; [| reflexivity].
  rewrite (run_answered net rc s e m resp Hok Hnet).
  apply Z.eqb_neq in Hstatus. rewrite Hstatus. reflexivity.
Qed.

Lemma non_200_raises_remote_request_error_witness :
  run (retrieve_data_from_usgs_api (answer_with 503 "Service Unavailable")
         (parse_as three_quakes) (PyDate jan_1) (PyDate jan_2)
         (PyFloat (FNum 5))) =
    ([RequestsGet (request_text (PyDate jan_1) (PyDate jan_2) (PyFloat (FNum 5)))],
     Raise (AssertionError (Some request_message))) /\
  error_kind_of (AssertionError (Some request_message)) = RemoteRequestError.
Proof.
  apply (non_200_raises_remote_request_error
           (answer_with 503 "Service Unavailable") (parse_as three_quakes)
           (PyDate jan_1) (PyDate jan_2) (PyFloat (FNum 5))
           (mkresponse 503 "Service Unavailable")).
  - reflexivity.
  - reflexivity.
  - simpl. lia.
Defined.

(** ** The checks on the arguments *)

(** What the checks of lines 41-44 do catch.  If the start or the end is
    not a date, or the magnitude is truthy and neither a float nor an
    integer, the routine raises an assertion error, which stands for
    [InvalidParameterError], on an empty trace: no request is issued.  The
    result is the same whatever the network and the parser are. *)
Lemma rejected_arguments_raise_before_the_request :
  forall (requests_get : string -> result response)
         (read_csv : string -> result DataFrame)
         (s e m : pyval),
    isinstance_date s = false \/ isinstance_date e = false \/
    (truthy m = true /\ isinstance_float m = false /\ isinstance_int m = false) ->
    exists msg,
      run (retrieve_data_from_usgs_api requests_get read_csv s e m) =
        ([], Raise (AssertionError msg)) /\
      error_kind_of (AssertionError msg) = InvalidParameterError /\
      (msg = None \/ msg = Some min_mag_message).
Proof.
  intros net rc s e m H.
  assert (Hrej : arguments_accepted s e m = false).
  { unfold arguments_accepted.
    destruct H as [Hs | [He | (Ht & Hf & Hi)]].
    - rewrite Hs. reflexivity.
    - rewrite He. apply andb_false_iff. left. apply andb_false_r.
    - rewrite Ht, Hf, Hi. apply andb_false_r. }
  rewrite (run_rejected net rc s e m Hrej).
  eexists. split; [reflexivity |].
  destruct (isinstance_date s && isinstance_date e); split;
    solve [reflexivity | now left | now right].
Qed.

(** ** What is done with the parsed frame *)

Lemma mean_pow2 (c : column) (m : pyfloat) :
  mean c = Return m -> exists sz, pow2 c = Return sz.
Proof.
  destruct c as [xs | xs | xs]; simpl; intros H; try (eexists; reflexivity).
  destruct (forallb is_none xs); [eexists; reflexivity | discriminate].
Qed.

Lemma forallb_is_number_square (xs : list pyfloat) :
  forallb is_number (map square xs) = forallb is_number xs.
Proof.
  induction xs as [| [q |] xs IH]; simpl; [reflexivity | exact IH | reflexivity].
Qed.

(** Without one of the five columns the run ends in an exception that
    stands for [ParseError], before the table and the link. *)
Lemma render_incomplete (df : DataFrame) (t : list event) (c : string) :
  In c displayed_columns ->
  get_col c df = None ->
  exists tr ex,
    render df t = ((t ++ tr)%list, Raise ex) /\
    error_kind_of ex = ParseError /\
    (get_col "mag" df = None -> ex = AttributeError "mag") /\
    (forall ev, In ev tr ->
       match ev with StDataframe _ | StMarkdown _ | RequestsGet _ => False | _ => True end).
Proof.
  intros Hin Hc.
  unfold render, bind, emit, lift, ret, mean_magnitude, getattr, getitem,
    scatter_geo, update_traces, displayed_columns.
  simpl.
  destruct (get_col "mag" df) as [mag |] eqn:Hm.
  2:{ exists [StColumns 2;
              StMetric "Number of Earthquakes" (PyInt (Z.of_nat (len df)))],
             (AttributeError "mag").
      repeat rewrite <- app_assoc. simpl. repeat split.
      intros ev [<- | [<- | []]]; exact I. }
  destruct (mean mag) as [m | ex] eqn:Hmean.
  2:{ exists [StColumns 2;
              StMetric "Number of Earthquakes" (PyInt (Z.of_nat (len df)))], ex.
      repeat rewrite <- app_assoc. simpl. repeat split.
      - destruct mag as [xs | xs | xs]; simpl in Hmean; try discriminate.
        destruct (forallb is_none xs); [discriminate |].
        injection Hmean as <-. reflexivity.
      - discriminate.
      - intros ev [<- | [<- | []]]; exact I. }
  destruct (mean_pow2 mag m Hmean) as [size Hsize].
  simpl. rewrite Hsize.
  set (shown4 := [StColumns 2;
                  StMetric "Number of Earthquakes" (PyInt (Z.of_nat (len df)));
                  StMetric "Average Mag of Earthquakes" (PyFloat (np_round2 m));
                  StWrite ""; StWrite ""]).
  assert (Hshown4 : forall ev, In ev shown4 ->
            match ev with
            | StDataframe _ | StMarkdown _ | RequestsGet _ => False
            | _ => True
            end).
  { intros ev [<- | [<- | [<- | [<- | [<- | []]]]]]; exact I. }
  destruct (get_col "latitude" df) as [lat |] eqn:Hla.
  2:{ exists shown4, ValueError. repeat rewrite <- app_assoc. simpl.
      repeat split; [discriminate | exact Hshown4]. }
  destruct (get_col "longitude" df) as [lon |] eqn:Hlo.
  2:{ exists shown4, ValueError. repeat rewrite <- app_assoc. simpl.
      repeat split; [discriminate | exact Hshown4]. }
  destruct (get_col "place" df) as [place |] eqn:Hp.
  2:{ exists shown4, ValueError. repeat rewrite <- app_assoc. simpl.
      repeat split; [discriminate | exact Hshown4]. }
  simpl.
  destruct (valid_sizes size) eqn:Hvalid.
  2:{ exists shown4, ValueError. repeat rewrite <- app_assoc. simpl.
      repeat split; [discriminate | exact Hshown4]. }
  simpl.
  destruct (get_col "depth" df) as [depth |] eqn:Hd.
  - exfalso. simpl in Hin.
    destruct Hin as [<- | [<- | [<- | [<- | [<- | []]]]]]; congruence.
  - eexists (shown4 ++ [StPlotlyChart _])%list, (KeyError "depth").
    repeat rewrite <- app_assoc. simpl. repeat split; [discriminate |].
    intros ev [<- | [<- | [<- | [<- | [<- | [<- | []]]]]]]; exact I.
Qed.

(** ** A body that lacks a column *)

(** C2. Arguments accepted, status 200, a body that the parser turns into a
    frame: if one of [place], [latitude], [longitude], [mag], [depth] is not
    a column of that frame, the routine raises an exception that stands for
    [ParseError] ([AttributeError] when it is [mag] that is missing) and
    returns nothing; neither the table nor the link is rendered. *)
Theorem missing_column_raises_parse_error :
  forall (requests_get : string -> result response)
         (read_csv : string -> result DataFrame)
         (s e m : pyval) (resp : response) (df : DataFrame) (c : string),
    arguments_accepted s e m = true ->
    requests_get (request_text s e m) = Return resp ->
    status_code resp = 200 ->
    read_csv (text resp) = Return df ->
    In c displayed_columns ->
    has_col c df = false ->
    exists tr ex,
      run (retrieve_data_from_usgs_api requests_get read_csv s e m) =
        (RequestsGet (request_text s e m) :: tr, Raise ex) /\
      error_kind_of ex = ParseError /\
      (has_col "mag" df = false -> ex = AttributeError "mag") /\
      (forall shown, ~ In (StDataframe shown) tr) /\
      (forall body, ~ In (StMarkdown body) tr).
Proof.
  intros net rc s e m resp df c Hok Hnet Hstatus Hparse Hin Hc.
  rewrite (run_answered net rc s e m resp Hok Hnet), Hstatus, Hparse. simpl.
  assert (Hnone : get_col c df = None).
  { unfold has_col in Hc. destruct (get_col c df); [discriminate | reflexivity]. }
  destruct (render_incomplete df [RequestsGet (request_text s e m)] c Hin Hnone)
    as (tr & ex & Hrun & Hkind & Hmag & Htr).
  exists tr, ex. rewrite Hrun. simpl. repeat split; trivial.
  - intros H. apply Hmag. unfold has_col in H.
    destruct (get_col "mag" df); [discriminate | reflexivity].
  - intros shown H. apply (Htr _ H).
  - intros body H. apply (Htr _ H).
Qed.

Lemma missing_column_raises_parse_error_witness :
  exists tr ex,
    run (retrieve_data_from_usgs_api (answer_with 200 "time,place")
           (parse_as [("time", ObjCol [Some "noon"]); ("place", ObjCol [Some "Alboran Sea"])])
           (PyDate jan_1) (PyDate jan_2) PyNone) =
      (RequestsGet (request_text (PyDate jan_1) (PyDate jan_2) PyNone) :: tr,
       Raise ex) /\
    error_kind_of ex = ParseError /\
    (has_col "mag" [("time", ObjCol [Some "noon"]); ("place", ObjCol [Some "Alboran Sea"])] = false ->
     ex = AttributeError "mag") /\
    (forall shown, ~ In (StDataframe shown) tr) /\
    (forall body, ~ In (StMarkdown body) tr).
Proof.
  apply (missing_column_raises_parse_error
           (answer_with 200 "time,place")
           (parse_as [("time", ObjCol [Some "noon"]); ("place", ObjCol [Some "Alboran Sea"])])
           (PyDate jan_1) (PyDate jan_2) PyNone
           (mkresponse 200 "time,place")
           [("time", ObjCol [Some "noon"]); ("place", ObjCol [Some "Alboran Sea"])]
           "mag").
  - reflexivity.
  - reflexivity.
  - reflexivity.
  - reflexivity.
  - simpl. tauto.
  - reflexivity.
Defined.

(** ** What a successful run gives back *)


(** A run of lines 62-95 that returns gives [None] and has rendered the
    frame in full. *)
Lemma render_returns (df : DataFrame) (t tr : list event)
    (v : option DataFrame) :
  render df t = (tr, Return v) ->
  v = None /\
  exists avg fig shown,
    mean_magnitude df = Return avg /\
    select df displayed_columns = Return shown /\
    tr = (t ++ [StColumns 2;
                StMetric "Number of Earthquakes" (PyInt (Z.of_nat (len df)));
                StMetric "Average Mag of Earthquakes" (PyFloat avg);
                StWrite ""; StWrite "";
                StPlotlyChart fig;
                StDataframe shown;
                StMarkdown (get_table_download_link df)])%list.
Proof.
  cbv [render bind emit lift ret].
  destruct (mean_magnitude df) as [avg | ex]; [| discriminate].
  destruct (getitem df "mag") as [mag | ex]; [| discriminate].
  destruct (pow2 mag) as [size | ex]; [| discriminate].
  destruct (scatter_geo df "latitude" "longitude" size ["place"; "mag"])
    as [fig | ex]; [| discriminate].
  destruct (select df displayed_columns) as [shown | ex]; [| discriminate].
  intros H. injection H as Htr Hv. split; [congruence |].
  do 3 eexists. split; [reflexivity |]. split; [reflexivity |].
  rewrite <- Htr. repeat rewrite <- app_assoc. reflexivity.
Qed.



(** ** The mean of no record *)

Lemma mean_of_no_row (c : column) : col_len c = O -> mean c = Return FNaN.
Proof.
  destruct c as [xs | xs | xs]; simpl; intros H;
    apply length_zero_iff_nil in H; subst xs; reflexivity.
Qed.

Lemma average_metric_is_emitted (df : DataFrame) (t : list event)
    (avg : pyfloat) :
  mean_magnitude df = Return avg ->
  exists tr,
    fst (render df t) =
      (t ++ [StColumns 2;
             StMetric "Number of Earthquakes" (PyInt (Z.of_nat (len df)));
             StMetric "Average Mag of Earthquakes" (PyFloat avg)] ++ tr)%list.
Proof.
  intros Havg. cbv [render bind emit lift ret]. rewrite Havg.
  destruct (getitem df "mag") as [mag | ex].
  2:{ simpl. repeat rewrite <- app_assoc. simpl. eexists. reflexivity. }
  destruct (pow2 mag) as [size | ex].
  2:{ simpl. repeat rewrite <- app_assoc. simpl. eexists. reflexivity. }
  destruct (scatter_geo df "latitude" "longitude" size ["place"; "mag"])
    as [fig | ex].
  2:{ simpl. repeat rewrite <- app_assoc. simpl. eexists. reflexivity. }
  destruct (select df displayed_columns) as [shown | ex];
    simpl; repeat rewrite <- app_assoc; simpl; eexists; reflexivity.
Qed.

(** C6. For a frame with a [mag] column and no record, the mean magnitude
    is computed without an exception and is NaN, and NaN is what the metric
    shows. *)
Theorem mean_of_empty_dataset_is_nan :
  forall (df : DataFrame) (mag : column) (t : list event),
    get_col "mag" df = Some mag ->
    col_len mag = O ->
    mean_magnitude df = Return FNaN /\
    exists tr,
      fst (render df t) =
        (t ++ [StColumns 2;
               StMetric "Number of Earthquakes" (PyInt (Z.of_nat (len df)));
               StMetric "Average Mag of Earthquakes" (PyFloat FNaN)] ++ tr)%list.
Proof.
  intros df mag t Hm Hlen.
  assert (Havg : mean_magnitude df = Return FNaN).
  { unfold mean_magnitude, getattr. rewrite Hm, (mean_of_no_row mag Hlen).
    reflexivity. }
  split; [exact Havg |]. apply average_metric_is_emitted, Havg.
Qed.

Lemma mean_of_empty_dataset_is_nan_witness :
  mean_magnitude [("place", ObjCol []); ("latitude", ObjCol []);
                  ("longitude", ObjCol []); ("mag", ObjCol []);
                  ("depth", ObjCol [])] = Return FNaN.
Proof.
  apply (mean_of_empty_dataset_is_nan
           [("place", ObjCol []); ("latitude", ObjCol []);
            ("longitude", ObjCol []); ("mag", ObjCol []); ("depth", ObjCol [])]
           (ObjCol []) []).
  - reflexivity.
  - reflexivity.
Defined.

(** ** Base64 *)

Lemma in_all_bytes (a : ascii) : In a all_bytes.
Proof.
  unfold all_bytes. rewrite <- (ascii_nat_embedding a).
  apply in_map, in_seq. pose proof (nat_ascii_bounded a). lia.
Qed.

Lemma all_bytes_checked :
  forallb byte_check all_bytes = true /\
  forallb (fun a => forallb (pair_check a) all_bytes) all_bytes = true.
Proof. split; vm_compute; reflexivity. Qed.

Lemma byte_checked (a : ascii) : byte_check a = true.
Proof.
  destruct all_bytes_checked as [H _].
  rewrite forallb_forall in H. apply H, in_all_bytes.
Qed.

Lemma pair_checked (a b : ascii) : pair_check a b = true.
Proof.
  destruct all_bytes_checked as [_ H].
  rewrite forallb_forall in H. specialize (H a (in_all_bytes a)).
  rewrite forallb_forall in H. apply H, in_all_bytes.
Qed.

Lemma index_is_eq (o : option N) (n : N) : index_is o n = true -> o = Some n.
Proof.
  destruct o as [k |]; simpl; [| discriminate].
  intros H. apply N.eqb_eq in H. subst k. reflexivity.
Qed.

Ltac split_check H :=
  repeat match type of H with
         | (_ && _) = true =>
             let H1 := fresh "Hc" in
             apply andb_true_iff in H; destruct H as [H H1]
         end.

Lemma byte_facts (a : ascii) :
  let x := N_of_ascii a in
  b64_index (b64_char (sextet1 x)) = Some (sextet1 x) /\
  Ascii.eqb (b64_char (sextet1 x)) dquote = false /\
  b64_index (b64_char (sextet4 x)) = Some (sextet4 x) /\
  Ascii.eqb (b64_char (sextet4 x)) b64_pad = false /\
  Ascii.eqb (b64_char (sextet4 x)) dquote = false /\
  ascii_of_N (N.lor (N.shiftl (N.shiftr x 4) 4) (N.land x 15)) = a.
Proof.
  intros x. pose proof (byte_checked a) as H. unfold byte_check in H.
  fold x in H. split_check H.
  repeat split;
    solve [ apply index_is_eq; assumption
          | apply negb_true_iff; assumption
          | apply Ascii.eqb_eq; assumption ].
Qed.

Lemma pair_facts (a b : ascii) :
  let x := N_of_ascii a in
  let y := N_of_ascii b in
  b64_index (b64_char (sextet2 x y)) = Some (sextet2 x y) /\
  Ascii.eqb (b64_char (sextet2 x y)) dquote = false /\
  b64_index (b64_char (sextet3 x y)) = Some (sextet3 x y) /\
  Ascii.eqb (b64_char (sextet3 x y)) b64_pad = false /\
  Ascii.eqb (b64_char (sextet3 x y)) dquote = false /\
  byte1 (sextet1 x) (sextet2 x y) = a /\
  byte3 (sextet3 x y) (sextet4 y) = b /\
  N.land (sextet2 x y) 15 = N.shiftr y 4 /\
  N.shiftr (sextet3 x y) 2 = N.land x 15.
Proof.
  intros x y. pose proof (pair_checked a b) as H. unfold pair_check in H.
  fold x in H. fold y in H. split_check H.
  repeat split;
    solve [ apply index_is_eq; assumption
          | apply negb_true_iff; assumption
          | apply Ascii.eqb_eq; assumption
          | apply N.eqb_eq; assumption ].
Qed.

(** The middle byte of a group comes back from the second and third
    characters, whatever the bytes around it. *)
Lemma byte2_sextets (a b c : ascii) :
  byte2 (sextet2 (N_of_ascii a) (N_of_ascii b))
        (sextet3 (N_of_ascii b) (N_of_ascii c)) = b.
Proof.
  unfold byte2.
  destruct (pair_facts a b) as (_ & _ & _ & _ & _ & _ & _ & Hlow & _).
  destruct (pair_facts b c) as (_ & _ & _ & _ & _ & _ & _ & _ & Hhigh).
  destruct (byte_facts b) as (_ & _ & _ & _ & _ & Hb).
  rewrite Hlow, Hhigh. exact Hb.
Qed.

#[local] Arguments b64_char : simpl never.
#[local] Arguments b64_index : simpl never.
#[local] Arguments sextet1 : simpl never.
#[local] Arguments sextet2 : simpl never.
#[local] Arguments sextet3 : simpl never.
#[local] Arguments sextet4 : simpl never.
#[local] Arguments byte1 : simpl never.
#[local] Arguments byte2 : simpl never.
#[local] Arguments byte3 : simpl never.

(** Induction on a list of bytes, three at a time. *)
Lemma bytes_ind3 (P : bytes -> Prop) :
  P [] ->
  (forall a, P [a]) ->
  (forall a b, P [a; b]) ->
  (forall a b c rest, P rest -> P (a :: b :: c :: rest)) ->
  forall bs, P bs.
Proof.
  intros H0 H1 H2 H3 bs.
  assert (H : P bs /\ (forall a, P (a :: bs)) /\ (forall a b, P (a :: b :: bs))).
  { induction bs as [| c rest (IH0 & IH1 & IH2)].
    - repeat split; auto.
    - repeat split; auto. }
  apply H.
Qed.

Lemma b64decode_last1 (a : ascii) : b64decode (b64encode [a]) = Some [a].
Proof.
  pose proof (byte_facts a) as (H1 & _).
  pose proof (pair_facts a Ascii.zero) as (H2 & _ & _ & _ & _ & Hb1 & _).
  change (N_of_ascii Ascii.zero) with 0%N in *.
  simpl. rewrite H1, H2. simpl. rewrite Hb1. reflexivity.
Qed.

Lemma b64decode_last2 (a b : ascii) : b64decode (b64encode [a; b]) = Some [a; b].
Proof.
  pose proof (byte_facts a) as (H1 & _).
  pose proof (pair_facts a b) as (H2 & _ & _ & _ & _ & Hb1 & _).
  pose proof (pair_facts b Ascii.zero) as (_ & _ & H3 & Hpad & _).
  pose proof (byte2_sextets a b Ascii.zero) as Hb2.
  change (N_of_ascii Ascii.zero) with 0%N in *.
  simpl. rewrite H1, H2, Hpad, H3, Hb1, Hb2. reflexivity.
Qed.

Lemma b64decode_group (a b c : ascii) (rest : bytes) :
  b64decode (b64encode (a :: b :: c :: rest)) =
    match b64decode (b64encode rest) with
    | Some tl => Some (a :: b :: c :: tl)
    | None => None
    end.
Proof.
  pose proof (byte_facts a) as (H1 & _).
  pose proof (pair_facts a b) as (H2 & _ & _ & _ & _ & Hb1 & _).
  pose proof (pair_facts b c) as (_ & _ & H3 & _ & _ & _ & Hb3 & _).
  pose proof (byte_facts c) as (_ & _ & H4 & Hpad & _).
  pose proof (byte2_sextets a b c) as Hb2.
  simpl. rewrite H1, H2, Hpad, H3, H4, Hb1, Hb2, Hb3. reflexivity.
Qed.

(** Decoding undoes encoding, for every sequence of bytes. *)
Lemma b64decode_b64encode (bs : bytes) : b64decode (b64encode bs) = Some bs.
Proof.
  induction bs as [| a | a b | a b c rest IH] using bytes_ind3.
  - reflexivity.
  - apply b64decode_last1.
  - apply b64decode_last2.
  - rewrite b64decode_group, IH. reflexivity.
Qed.

(** No character of an encoding is a double quote. *)
Lemma b64encode_no_dquote (bs : bytes) :
  Forall (fun ch => Ascii.eqb ch dquote = false) (b64encode bs).
Proof.
  induction bs as [| a | a b | a b c rest IH] using bytes_ind3.
  - constructor.
  - pose proof (byte_facts a) as (_ & Hq1 & _).
    pose proof (pair_facts a Ascii.zero) as (_ & Hq2 & _).
    change (N_of_ascii Ascii.zero) with 0%N in *.
    simpl. repeat constructor; assumption.
  - pose proof (byte_facts a) as (_ & Hq1 & _).
    pose proof (pair_facts a b) as (_ & Hq2 & _).
    pose proof (pair_facts b Ascii.zero) as (_ & _ & _ & _ & Hq3 & _).
    change (N_of_ascii Ascii.zero) with 0%N in *.
    simpl. repeat constructor; assumption.
  - pose proof (byte_facts a) as (_ & Hq1 & _).
    pose proof (pair_facts a b) as (_ & Hq2 & _).
    pose proof (pair_facts b c) as (_ & _ & _ & _ & Hq3 & _).
    pose proof (byte_facts c) as (_ & _ & _ & _ & Hq4 & _).
    simpl. repeat constructor; assumption.
Qed.

(** ** The link and its payload *)

Lemma strip_prefix_app (p s : string) : strip_prefix p (p ++ s) = Some s.
Proof.
  induction p as [| a p IH]; simpl.
  - destruct s; reflexivity.
  - rewrite Ascii.eqb_refl. exact IH.
Qed.

Lemma take_until_app (c : ascii) (cs : list ascii) (rest : string) :
  Forall (fun ch => Ascii.eqb ch c = false) cs ->
  take_until c (string_of_list_ascii cs ++ String c rest) =
    string_of_list_ascii cs.
Proof.
  induction 1 as [| ch cs Hch _ IH]; simpl.
  - rewrite Ascii.eqb_refl. reflexivity.
  - rewrite Hch, IH. reflexivity.
Qed.

(** The payload of the link is the encoding of the CSV text, and decodes
    to its bytes. *)
Lemma link_payload_decodes (df : DataFrame) :
  link_payload (get_table_download_link df) =
    Some (decode (b64encode (encode (to_csv df)))) /\
  b64decode (encode (decode (b64encode (encode (to_csv df))))) =
    Some (encode (to_csv df)).
Proof.
  split.
  - unfold link_payload, get_table_download_link.
    rewrite strip_prefix_app. unfold link_suffix, decode. simpl.
    rewrite take_until_app; [reflexivity | apply b64encode_no_dquote].
  - unfold encode at 1, decode.
    rewrite list_ascii_of_string_of_list_ascii. apply b64decode_b64encode.
Qed.

(** C4. For every frame, the payload read back from the link, once decoded
    from base64, is the bytes of the frame's CSV text, one for one. *)
Theorem download_link_round_trip :
  forall df : DataFrame,
    exists payload : string,
      link_payload (get_table_download_link df) = Some payload /\
      b64decode (encode payload) = Some (encode (to_csv df)) /\
      option_map decode (b64decode (encode payload)) = Some (to_csv df).
Proof.
  intros df. exists (decode (b64encode (encode (to_csv df)))).
  destruct (link_payload_decodes df) as [Hlink Hdec].
  split; [exact Hlink |]. split; [exact Hdec |].
  rewrite Hdec. simpl. unfold decode, encode.
  rewrite string_of_list_ascii_of_string. reflexivity.
Qed.

(** ** The request URL *)

Lemma all_chars_app (p : ascii -> bool) (s1 s2 : string) :
  all_chars p (s1 ++ s2) = all_chars p s1 && all_chars p s2.
Proof.
  induction s1 as [| c s1 IH]; simpl; [reflexivity |].
  rewrite IH. apply andb_assoc.
Qed.

Lemma all_chars_mem (p : ascii -> bool) (c : ascii) (s : string) :
  all_chars p s = true -> p c = false -> mem_char c s = false.
Proof.
  intros Hs Hc. induction s as [| d s IH]; simpl in *; [reflexivity |].
  apply andb_true_iff in Hs. destruct Hs as [Hd Hs].
  rewrite (IH Hs), orb_false_r.
  destruct (Ascii.eqb c d) eqn:E; [| reflexivity].
  apply Ascii.eqb_eq in E. subst d. congruence.
Qed.

Lemma plain_uint (u : Decimal.uint) :
  all_chars plain_char (NilEmpty.string_of_uint u) = true.
Proof. induction u; simpl; trivial. Qed.

Lemma plain_str_nat (n : nat) : all_chars plain_char (str_nat n) = true.
Proof.
  unfold str_nat, NilZero.string_of_uint.
  destruct (Nat.to_uint n); try apply plain_uint. reflexivity.
Qed.

Lemma plain_str_int (z : Z) : all_chars plain_char (str_int z) = true.
Proof.
  unfold str_int, NilZero.string_of_int, NilZero.string_of_uint.
  destruct (Z.to_int z) as [u | u]; destruct u; simpl; trivial;
    apply plain_uint.
Qed.

Lemma plain_zeros (n : nat) : all_chars plain_char (zeros n) = true.
Proof. induction n; simpl; trivial. Qed.

Lemma plain_isoformat (d : date) : all_chars plain_char (isoformat d) = true.
Proof.
  unfold isoformat, zero_pad.
  repeat (rewrite all_chars_app; apply andb_true_iff; split);
    solve [apply plain_zeros | apply plain_str_nat | reflexivity].
Qed.

Lemma plain_digit_char (d : Z) :
  0 <= d < 10 -> plain_char (digit_char d) = true.
Proof.
  intros H.
  assert (E : d = 0 \/ d = 1 \/ d = 2 \/ d = 3 \/ d = 4 \/
              d = 5 \/ d = 6 \/ d = 7 \/ d = 8 \/ d = 9) by lia.
  repeat (destruct E as [-> | E]; [reflexivity |]). subst d. reflexivity.
Qed.

Lemma plain_frac_digits (fuel : nat) (r d : Z) :
  0 <= r < d -> all_chars plain_char (frac_digits fuel r d) = true.
Proof.
  revert r. induction fuel as [| fuel IH]; intros r Hr; simpl; [reflexivity |].
  apply andb_true_iff. split.
  - apply plain_digit_char. split.
    + apply Z.div_pos; lia.
    + apply Z.div_lt_upper_bound; lia.
  - destruct (r * 10 mod d =? 0); [reflexivity |].
    apply IH. apply Z.mod_pos_bound. lia.
Qed.

Lemma plain_repr_float (x : pyfloat) : all_chars plain_char (repr_float x) = true.
Proof.
  destruct x as [q |]; [| reflexivity].
  unfold repr_float.
  repeat (rewrite all_chars_app; apply andb_true_iff; split).
  - destruct (Qnum q <? 0); reflexivity.
  - apply plain_str_int.
  - reflexivity.
  - apply plain_frac_digits. apply Z.mod_pos_bound. reflexivity.
Qed.

(** The text put in the URL for a magnitude that passed the check. *)
Lemma plain_magnitude (m : pyval) :
  (isinstance_float m || isinstance_int m) = true ->
  all_chars plain_char (format_value m) = true.
Proof.
  destruct m as [| [] | n | x | s | d]; simpl; intros H;
    try discriminate; trivial.
  - apply plain_str_int.
  - apply plain_repr_float.
Qed.

Lemma partition_app (c : ascii) (p rest : string) :
  mem_char c p = false -> partition c (p ++ String c rest) = (p, rest).
Proof.
  induction p as [| d p IH]; simpl; intros H.
  - rewrite Ascii.eqb_refl. reflexivity.
  - apply orb_false_iff in H. destruct H as [Hd Hp].
    rewrite Ascii.eqb_sym, Hd, (IH Hp). reflexivity.
Qed.

Lemma split_on_app (c : ascii) (p rest : string) :
  mem_char c p = false ->
  split_on c (p ++ String c rest) = p :: split_on c rest.
Proof.
  induction p as [| d p IH]; simpl; intros H.
  - rewrite Ascii.eqb_refl. reflexivity.
  - apply orb_false_iff in H. destruct H as [Hd Hp].
    rewrite Ascii.eqb_sym, Hd, (IH Hp). reflexivity.
Qed.

Lemma split_on_plain (c : ascii) (p : string) :
  mem_char c p = false -> split_on c p = [p].
Proof.
  induction p as [| d p IH]; simpl; intros H; [reflexivity |].
  apply orb_false_iff in H. destruct H as [Hd Hp].
  rewrite Ascii.eqb_sym, Hd, (IH Hp). reflexivity.
Qed.

Lemma mem_char_app (c : ascii) (s1 s2 : string) :
  mem_char c (s1 ++ s2) = mem_char c s1 || mem_char c s2.
Proof.
  induction s1 as [| d s1 IH]; simpl; [reflexivity |].
  rewrite IH. apply orb_assoc.
Qed.

(** A [key=value] piece whose value is plain. *)
Lemma partition_key_value (key value : string) :
  mem_char "=" key = false ->
  partition "=" (key ++ "=" ++ value) = (key, value).
Proof. intros H. apply (partition_app "=" key value H). Qed.

Lemma key_value_no_amp (key value : string) :
  mem_char "&" key = false ->
  all_chars plain_char value = true ->
  mem_char "&" (key ++ "=" ++ value) = false.
Proof.
  intros Hk Hv. rewrite mem_char_app, Hk. simpl.
  apply (all_chars_mem plain_char "&" value Hv). reflexivity.
Qed.

Lemma string_app_assoc (s1 s2 s3 : string) :
  (s1 ++ s2) ++ s3 = s1 ++ (s2 ++ s3).
Proof.
  induction s1 as [| c s1 IH]; simpl; [reflexivity |].
  rewrite IH. reflexivity.
Qed.

Lemma url_without_magnitude (S E : string) :
  all_chars plain_char S = true ->
  all_chars plain_char E = true ->
  let url := endpoint ++ "?format=csv&starttime=" ++ S ++ "&endtime=" ++ E in
  fst (partition "?" url) = endpoint /\
  query_params url = [("format", "csv"); ("starttime", S); ("endtime", E)].
Proof.
  intros HS HE url.
  assert (Hurl : url =
            endpoint ++ String "?"
              ("format=csv" ++ String "&"
                 (("starttime" ++ "=" ++ S) ++ String "&"
                    ("endtime" ++ "=" ++ E)))).
  { unfold url. simpl. rewrite ?string_app_assoc. reflexivity. }
  unfold query_params. rewrite Hurl, partition_app by reflexivity.
  split; [reflexivity |]. cbn [snd].
  rewrite split_on_app by reflexivity.
  rewrite split_on_app by (apply key_value_no_amp; [reflexivity | exact HS]).
  rewrite split_on_plain by (apply key_value_no_amp; [reflexivity | exact HE]).
  cbn [map].
  rewrite !partition_key_value by reflexivity. reflexivity.
Qed.

Lemma url_with_magnitude (S E V : string) :
  all_chars plain_char S = true ->
  all_chars plain_char E = true ->
  all_chars plain_char V = true ->
  let url := endpoint ++ "?format=csv&starttime=" ++ S ++ "&endtime=" ++ E ++
             "&minmagnitude=" ++ V in
  fst (partition "?" url) = endpoint /\
  query_params url =
    [("format", "csv"); ("starttime", S); ("endtime", E); ("minmagnitude", V)].
Proof.
  intros HS HE HV url.
  assert (Hurl : url =
            endpoint ++ String "?"
              ("format=csv" ++ String "&"
                 (("starttime" ++ "=" ++ S) ++ String "&"
                    (("endtime" ++ "=" ++ E) ++ String "&"
                       ("minmagnitude" ++ "=" ++ V))))).
  { unfold url. simpl. rewrite ?string_app_assoc. reflexivity. }
  unfold query_params. rewrite Hurl, partition_app by reflexivity.
  split; [reflexivity |]. cbn [snd].
  rewrite split_on_app by reflexivity.
  rewrite split_on_app by (apply key_value_no_amp; [reflexivity | exact HS]).
  rewrite split_on_app by (apply key_value_no_amp; [reflexivity | exact HE]).
  rewrite split_on_plain by (apply key_value_no_amp; [reflexivity | exact HV]).
  cbn [map].
  rewrite !partition_key_value by reflexivity. reflexivity.
Qed.

Lemma extends_ret {A : Type} (a : A) : extends (ret a).
Proof. intros t. exists []. simpl. rewrite app_nil_r. reflexivity. Qed.

Lemma extends_lift {A : Type} (r : result A) : extends (lift r).
Proof. intros t. exists []. simpl. rewrite app_nil_r. reflexivity. Qed.

Lemma extends_emit (ev : event) : extends (emit ev).
Proof. intros t. exists [ev]. reflexivity. Qed.

Lemma extends_bind {A B : Type} (c : M A) (k : A -> M B) :
  extends c -> (forall a, extends (k a)) -> extends (bind c k).
Proof.
  intros Hc Hk t. unfold bind. destruct (Hc t) as [tr1 H1].
  destruct (c t) as [t1 [a | ex]]; simpl in H1; subst t1.
  - destruct (Hk a (t ++ tr1)%list) as [tr2 H2].
    exists (tr1 ++ tr2)%list. rewrite H2. apply eq_sym, app_assoc.
  - exists tr1. reflexivity.
Qed.

Lemma render_extends (df : DataFrame) : extends (render df).
Proof.
  unfold render.
  repeat first [ apply extends_bind; [| intros ?]
               | apply extends_emit | apply extends_lift | apply extends_ret ].
Qed.

(** With accepted arguments the first thing the routine does is the
    request, to the text of lines 47-50. *)
Lemma first_event_is_the_request
    (requests_get : string -> result response)
    (read_csv : string -> result DataFrame) (s e m : pyval) :
  arguments_accepted s e m = true ->
  hd_error (trace_of (retrieve_data_from_usgs_api requests_get read_csv s e m)) =
    Some (RequestsGet (request_text s e m)).
Proof.
  intros Hok. unfold trace_of.
  destruct (requests_get (request_text s e m)) as [resp | ex] eqn:Hnet.
  - rewrite (run_answered _ read_csv s e m resp Hok Hnet).
    destruct (status_code resp =? 200); [| reflexivity].
    destruct (read_csv (text resp)) as [df | ex]; [| reflexivity].
    destruct (render_extends df [RequestsGet (request_text s e m)]) as [tr H].
    rewrite H. reflexivity.
  - rewrite (run_connection_failed _ read_csv s e m ex Hok Hnet). reflexivity.
Qed.

(** C3.  The check on the magnitude is guarded by the truth value of the
    magnitude, so it is skipped for a value that is given and is falsy.
    With two dates and the empty text as the magnitude, which is no number,
    no assertion fails: whatever the network and the parser, the routine
    goes on to the request, for the URL without [minmagnitude].  Any text
    that is not empty is refused by the assertion of line 44 before the
    request, as the message of that assertion says a magnitude has to be a
    float or an int. *)
Theorem empty_text_magnitude_reaches_the_network :
  forall (requests_get : string -> result response)
         (read_csv : string -> result DataFrame)
         (d1 d2 : date),
    malformed (PyDate d1) (PyDate d2) (PyStr "") = true /\
    hd_error (trace_of (retrieve_data_from_usgs_api requests_get read_csv
                          (PyDate d1) (PyDate d2) (PyStr ""))) =
      Some (RequestsGet
              (endpoint ++ "?format=csv&starttime=" ++ isoformat d1 ++
               "&endtime=" ++ isoformat d2)) /\
    (forall msg,
       run (retrieve_data_from_usgs_api requests_get read_csv
              (PyDate d1) (PyDate d2) (PyStr "")) <>
         ([], Raise (AssertionError msg))) /\
    (forall c t,
       run (retrieve_data_from_usgs_api requests_get read_csv
              (PyDate d1) (PyDate d2) (PyStr (String c t))) =
         ([], Raise (AssertionError (Some min_mag_message)))).
Proof.
  intros net rc d1 d2.
  assert (Hfirst : hd_error
                     (trace_of (retrieve_data_from_usgs_api net rc
                                  (PyDate d1) (PyDate d2) (PyStr ""))) =
                   Some (RequestsGet
                           (endpoint ++ "?format=csv&starttime=" ++
                            isoformat d1 ++ "&endtime=" ++ isoformat d2))).
  { apply (first_event_is_the_request net rc (PyDate d1) (PyDate d2) (PyStr "")).
    reflexivity. }
  split; [reflexivity |]. split; [exact Hfirst |]. split.
  - intros msg Hrun. unfold trace_of in Hfirst. rewrite Hrun in Hfirst.
    discriminate Hfirst.
  - intros c t.
    apply (run_rejected net rc (PyDate d1) (PyDate d2) (PyStr (String c t))).
    reflexivity.
Qed.

(** C8.  The magnitude is put in the URL under the same guard, its truth
    value, so a magnitude of zero is left out: with the dates 2024-01-01 and
    2024-01-02 and the magnitude 0.0, which is given and is a number, the
    URL has the three other parameters and no [minmagnitude]. *)
Lemma zero_magnitude_is_not_in_the_url :
  is_real_number (PyFloat (FNum 0)) = true /\
  request_text (PyDate jan_1) (PyDate jan_2) (PyFloat (FNum 0)) =
    "https://earthquake.usgs.gov/fdsnws/event/1/query?format=csv&starttime=2024-01-01&endtime=2024-01-02" /\
  query_params (request_text (PyDate jan_1) (PyDate jan_2) (PyFloat (FNum 0))) =
    [("format", "csv"); ("starttime", "2024-01-01"); ("endtime", "2024-01-02")] /\
  ~ (forall d1 d2 m,
        is_real_number m = true ->
        query_params (request_text (PyDate d1) (PyDate d2) m) =
          [("format", "csv"); ("starttime", isoformat d1);
           ("endtime", isoformat d2); ("minmagnitude", format_value m)]).
Proof.
  split; [reflexivity |]. split; [reflexivity |]. split; [reflexivity |].
  intros H. specialize (H jan_1 jan_2 (PyFloat (FNum 0)) eq_refl).
  vm_compute in H. discriminate H.
Qed.

(** The request for a magnitude that is counted as given.  For two dates
    and a magnitude that passes the check and is truthy (so not zero), the
    URL requested is the endpoint followed by
    the parameters [format=csv], [starttime] and [endtime] set to the ISO
    dates, and [minmagnitude] set to the text of the value.  With the dates
    2024-01-01 and 2024-01-02 and the magnitude 5.0 it contains
    [starttime=2024-01-01&endtime=2024-01-02&minmagnitude=5.0].  With no
    magnitude the URL has the first three parameters only. *)
Theorem request_url_parameters :
  forall (requests_get : string -> result response)
         (read_csv : string -> result DataFrame)
         (d1 d2 : date) (m : pyval),
    (isinstance_float m || isinstance_int m) = true ->
    truthy m = true ->
    (request_text (PyDate d1) (PyDate d2) m =
       endpoint ++ "?format=csv&starttime=" ++ isoformat d1 ++
       "&endtime=" ++ isoformat d2 ++ "&minmagnitude=" ++ format_value m /\
     fst (partition "?" (request_text (PyDate d1) (PyDate d2) m)) = endpoint /\
     query_params (request_text (PyDate d1) (PyDate d2) m) =
       [("format", "csv"); ("starttime", isoformat d1);
        ("endtime", isoformat d2); ("minmagnitude", format_value m)] /\
     hd_error (trace_of (retrieve_data_from_usgs_api requests_get read_csv
                           (PyDate d1) (PyDate d2) m)) =
       Some (RequestsGet (request_text (PyDate d1) (PyDate d2) m))) /\
    (request_text (PyDate d1) (PyDate d2) PyNone =
       endpoint ++ "?format=csv&starttime=" ++ isoformat d1 ++
       "&endtime=" ++ isoformat d2 /\
     fst (partition "?" (request_text (PyDate d1) (PyDate d2) PyNone)) = endpoint /\
     query_params (request_text (PyDate d1) (PyDate d2) PyNone) =
       [("format", "csv"); ("starttime", isoformat d1);
        ("endtime", isoformat d2)] /\
     hd_error (trace_of (retrieve_data_from_usgs_api requests_get read_csv
                           (PyDate d1) (PyDate d2) PyNone)) =
       Some (RequestsGet (request_text (PyDate d1) (PyDate d2) PyNone))) /\
    contains "starttime=2024-01-01&endtime=2024-01-02&minmagnitude=5.0"
      (request_text (PyDate jan_1) (PyDate jan_2) (PyFloat (FNum 5))) = true.
Proof.
  intros net rc d1 d2 m Hnum Ht.
  pose proof (plain_isoformat d1) as H1.
  pose proof (plain_isoformat d2) as H2.
  pose proof (plain_magnitude m Hnum) as Hm.
  split; [| split].
  - unfold request_text. rewrite Ht. simpl format_value.
    destruct (url_with_magnitude _ _ _ H1 H2 Hm) as [Hend Hq].
    repeat split; trivial.
    pose proof (first_event_is_the_request net rc (PyDate d1) (PyDate d2) m) as Hfirst.
    unfold request_text in Hfirst. rewrite Ht in Hfirst. apply Hfirst.
    unfold arguments_accepted. simpl. rewrite Ht. exact Hnum.
  - unfold request_text. simpl truthy. cbv iota. simpl format_value.
    destruct (url_without_magnitude _ _ H1 H2) as [Hend Hq].
    repeat split; trivial.
    apply (first_event_is_the_request net rc (PyDate d1) (PyDate d2) PyNone).
    reflexivity.
  - vm_compute. reflexivity.
Qed.

Lemma request_url_parameters_witness :
  query_params (request_text (PyDate jan_1) (PyDate jan_2) (PyFloat (FNum 5))) =
    [("format", "csv"); ("starttime", isoformat jan_1);
     ("endtime", isoformat jan_2); ("minmagnitude", format_value (PyFloat (FNum 5)))].
Proof.
  apply (request_url_parameters (answer_with 200 "time,latitude")
           (parse_as three_quakes) jan_1 jan_2 (PyFloat (FNum 5))).
  - reflexivity.
  - reflexivity.
Defined.

(** ** A magnitude of zero *)

(** C9. A magnitude that is falsy, the integer 0 and a float equal to zero
    among them, is treated as [None] is: from any trace the routine does and
    gives the same, whatever the network and the parser, without looking at
    the type of the value (the empty text goes the same way); the request
    text stops after [endtime], and for two dates its parameters are
    [format], [starttime] and [endtime], with no [minmagnitude]. *)
Theorem zero_magnitude_is_treated_as_absent :
  forall (requests_get : string -> result response)
         (read_csv : string -> result DataFrame)
         (s e m : pyval) (t : list event),
    truthy m = false ->
    retrieve_data_from_usgs_api requests_get read_csv s e m t =
      retrieve_data_from_usgs_api requests_get read_csv s e PyNone t /\
    request_text s e m =
      endpoint ++ "?format=csv&starttime=" ++ format_value s ++
      "&endtime=" ++ format_value e /\
    (forall d1 d2,
       s = PyDate d1 -> e = PyDate d2 ->
       query_params (request_text s e m) =
         [("format", "csv"); ("starttime", isoformat d1);
          ("endtime", isoformat d2)]) /\
    truthy (PyInt 0) = false /\
    (forall q, (q == 0)%Q -> truthy (PyFloat (FNum q)) = false) /\
    truthy (PyStr "") = false.
Proof.
  intros net rc s e m t Hm. repeat split.
  - unfold retrieve_data_from_usgs_api, request_text. simpl. rewrite Hm.
    reflexivity.
  - unfold request_text. rewrite Hm. reflexivity.
  - intros d1 d2 -> ->. unfold request_text. rewrite Hm. simpl format_value.
    apply (url_without_magnitude (isoformat d1) (isoformat d2));
      apply plain_isoformat.
  - intros q Hq. simpl. unfold Qeq in Hq. simpl in Hq.
    assert (Qnum q = 0) by lia. rewrite H. reflexivity.
Qed.

Lemma zero_magnitude_is_treated_as_absent_witness :
  retrieve_data_from_usgs_api (answer_with 200 "time,latitude")
    (parse_as three_quakes) (PyDate jan_1) (PyDate jan_2) (PyFloat (FNum 0)) [] =
  retrieve_data_from_usgs_api (answer_with 200 "time,latitude")
    (parse_as three_quakes) (PyDate jan_1) (PyDate jan_2) PyNone [].
Proof.
  apply (zero_magnitude_is_treated_as_absent
           (answer_with 200 "time,latitude") (parse_as three_quakes)
           (PyDate jan_1) (PyDate jan_2) (PyFloat (FNum 0)) []).
  reflexivity.
Defined.

(** ** What is exported and what is displayed *)

Lemma get_col_in_columns (name : string) (df : DataFrame) (c : column) :
  get_col name df = Some c -> In name (columns df).
Proof.
  induction df as [| [n c'] df IH]; simpl; [discriminate |].
  destruct (String.eqb n name) eqn:E.
  - intros _. left. apply String.eqb_eq, E.
  - intros H. right. apply IH, H.
Qed.

Lemma select_columns (df : DataFrame) (names : list string) (shown : DataFrame) :
  select df names = Return shown ->
  columns shown = names /\ incl names (columns df).
Proof.
  revert shown. induction names as [| n names IH]; simpl; intros shown H.
  - injection H as <-. split; [reflexivity | intros x []].
  - destruct (get_col n df) as [c |] eqn:Hc; [| discriminate].
    destruct (select df names) as [cols | ex]; [| discriminate].
    injection H as <-. destruct (IH cols eq_refl) as [Hcols Hincl].
    split; [simpl; rewrite Hcols; reflexivity |].
    intros x [<- | Hx]; [eapply get_col_in_columns; eassumption | apply Hincl, Hx].
Qed.

Lemma to_csv_header (df : DataFrame) :
  exists rows : string,
    to_csv df = csv_record (columns df) ++ str1 newline ++ rows.
Proof.
  unfold to_csv, csv_records. simpl.
  destruct (map (fun r => csv_record r ++ str1 newline)
              (map (row_texts df) (seq 0 (len df)))) as [| l ls] eqn:E.
  - exists "". reflexivity.
  - exists (String.concat "" (l :: ls)). rewrite string_app_assoc. reflexivity.
Qed.

(** C10, as stated, fails: a frame with the five displayed columns and no
    other is exported with those five columns, which is not a strict
    superset of what is displayed. *)
Lemma export_of_five_columns_is_not_strictly_larger :
  select five_columns displayed_columns = Return five_columns /\
  hd [] (csv_records five_columns) = displayed_columns /\
  ~ strict_superset (columns five_columns) displayed_columns /\
  ~ (forall df shown,
        select df displayed_columns = Return shown ->
        strict_superset (columns df) (columns shown)).
Proof.
  assert (Hns : ~ strict_superset (columns five_columns) displayed_columns).
  { intros [_ Hn]. apply Hn. intros x Hx. exact Hx. }
  split; [reflexivity |]. split; [reflexivity |]. split; [exact Hns |].
  intros H. apply Hns. apply (H five_columns five_columns). reflexivity.
Qed.

(** C10, amended.  For every frame the link carries the CSV text of the
    whole frame: a header with the name of every column in order, then one
    record per row, each with one field per column and so no index field.
    When the table is displayed it has the five columns [place],
    [latitude], [longitude], [mag], [depth], all of which are exported; the
    export has more columns than the table exactly when the frame has a
    column other than those five. *)
Theorem export_has_every_column :
  forall (df : DataFrame) (shown : DataFrame),
    select df displayed_columns = Return shown ->
    (link_payload (get_table_download_link df) =
       Some (decode (b64encode (encode (to_csv df)))) /\
     b64decode (encode (decode (b64encode (encode (to_csv df))))) =
       Some (encode (to_csv df))) /\
    (exists rows, to_csv df = csv_record (columns df) ++ str1 newline ++ rows) /\
    hd [] (csv_records df) = columns df /\
    length (csv_records df) = S (len df) /\
    (forall r, In r (csv_records df) -> length r = length df) /\
    columns shown = displayed_columns /\
    incl (columns shown) (columns df) /\
    (strict_superset (columns df) (columns shown) <->
     exists c, In c (columns df) /\ ~ In c displayed_columns).
Proof.
  intros df shown Hsel.
  destruct (select_columns df displayed_columns shown Hsel) as [Hcols Hincl].
  split; [apply link_payload_decodes |].
  split; [apply to_csv_header |].
  split; [reflexivity |].
  split; [unfold csv_records; simpl; rewrite length_map, length_seq; reflexivity |].
  split.
  { intros r [<- | Hr].
    - unfold columns. apply length_map.
    - apply in_map_iff in Hr. destruct Hr as (i & <- & _).
      unfold row_texts. apply length_map. }
  split; [exact Hcols |].
  split; [rewrite Hcols; exact Hincl |].
  rewrite Hcols. split.
  - intros [_ Hn].
    assert (Hex : Exists (fun c => ~ In c displayed_columns) (columns df)).
    { apply neg_Forall_Exists_neg.
      - intros c. destruct (in_dec string_dec c displayed_columns); auto.
      - intros Hall. apply Hn. intros c Hc.
        rewrite Forall_forall in Hall. apply Hall, Hc. }
    apply Exists_exists in Hex. exact Hex.
  - intros (c & Hc & Hnc). split; [exact Hincl |].
    intros Hsub. apply Hnc, Hsub, Hc.
Qed.

Lemma export_has_every_column_witness :
  strict_superset (columns three_quakes) displayed_columns <->
  exists c, In c (columns three_quakes) /\ ~ In c displayed_columns.
Proof.
  apply (export_has_every_column three_quakes
           [("place", ObjCol [Some "42 km NE of Anamizu, Japan";
                              Some "Papua New Guinea"; Some "Alboran Sea"]);
            ("latitude", FloatCol [FNum (3741 # 100); FNum (-55 # 10); FNum (36 # 1)]);
            ("longitude", FloatCol [FNum (13725 # 100); FNum (15203 # 100); FNum (-12 # 1)]);
            ("mag", FloatCol [FNum (51 # 10); FNum (62 # 10); FNum (55 # 10)]);
            ("depth", IntCol [10; 35; 12])]).
  reflexivity.
Defined.

(** * Further properties of the routine *)

(** ** Exceptions of the network and of the parser *)

(** X1. The routine catches nothing.  With accepted arguments, an exception
    raised by [requests.get] comes out of the routine as it is, and so does
    an exception raised by [pd.read_csv] on the body of a 200 answer; in both
    cases the request is the only thing in the trace. *)
Theorem exceptions_are_not_caught :
  forall (requests_get : string -> result response)
         (read_csv : string -> result DataFrame)
         (s e m : pyval) (ex : exn),
    arguments_accepted s e m = true ->
    (requests_get (request_text s e m) = Raise ex ->
     run (retrieve_data_from_usgs_api requests_get read_csv s e m) =
       ([RequestsGet (request_text s e m)], Raise ex)) /\
    (forall resp,
       requests_get (request_text s e m) = Return resp ->
       status_code resp = 200 ->
       read_csv (text resp) = Raise ex ->
       run (retrieve_data_from_usgs_api requests_get read_csv s e m) =
         ([RequestsGet (request_text s e m)], Raise ex)).
Proof.
  intros net rc s e m ex Hok. split.
  - intros Hnet. apply run_connection_failed; assumption.
  - intros resp Hnet Hstatus Hparse.
    rewrite (run_answered net rc s e m resp Hok Hnet), Hstatus, Hparse.
    reflexivity.
Qed.

Lemma exceptions_are_not_caught_witness :
  run (retrieve_data_from_usgs_api (answer_with 200 "")
         (fun _ => Raise EmptyDataError)
         (PyDate jan_1) (PyDate jan_2) PyNone) =
    ([RequestsGet (request_text (PyDate jan_1) (PyDate jan_2) PyNone)],
     Raise EmptyDataError).
Proof.
  destruct (exceptions_are_not_caught (answer_with 200 "")
              (fun _ => Raise EmptyDataError)
              (PyDate jan_1) (PyDate jan_2) PyNone EmptyDataError eq_refl)
    as [_ Hparse].
  apply (Hparse (mkresponse 200 "")); reflexivity.
Defined.

(** ** How many requests *)

Lemma emits_only_ret {A : Type} (p : event -> bool) (a : A) :
  emits_only p (ret a).
Proof. intros t. exists []. simpl. rewrite app_nil_r. split; reflexivity. Qed.

Lemma emits_only_lift {A : Type} (p : event -> bool) (r : result A) :
  emits_only p (lift r).
Proof. intros t. exists []. simpl. rewrite app_nil_r. split; reflexivity. Qed.

Lemma emits_only_emit (p : event -> bool) (ev : event) :
  p ev = true -> emits_only p (emit ev).
Proof. intros H t. exists [ev]. simpl. rewrite H. split; reflexivity. Qed.

Lemma emits_only_bind {A B : Type} (p : event -> bool) (c : M A) (k : A -> M B) :
  emits_only p c -> (forall a, emits_only p (k a)) -> emits_only p (bind c k).
Proof.
  intros Hc Hk t. unfold bind. destruct (Hc t) as (tr1 & H1 & P1).
  destruct (c t) as [t1 [a | ex]]; simpl in H1; subst t1.
  - destruct (Hk a (t ++ tr1)%list) as (tr2 & H2 & P2).
    exists (tr1 ++ tr2)%list. rewrite H2, app_assoc, forallb_app, P1, P2.
    split; reflexivity.
  - exists tr1. split; [reflexivity | exact P1].
Qed.

(** Lines 62-95 make no request. *)
Lemma render_makes_no_request (df : DataFrame) :
  emits_only (fun ev => negb (is_request ev)) (render df).
Proof.
  unfold render.
  repeat first [ apply emits_only_bind; [| intros ?]
               | apply emits_only_emit; reflexivity
               | apply emits_only_lift | apply emits_only_ret ].
Qed.

Lemma no_request_counted (tr : list event) :
  forallb (fun ev => negb (is_request ev)) tr = true -> count_requests tr = O.
Proof.
  unfold count_requests. induction tr as [| ev tr IH]; simpl; [reflexivity |].
  intros H. apply andb_true_iff in H. destruct H as [Hev Htr].
  apply negb_true_iff in Hev. rewrite Hev. apply IH, Htr.
Qed.

Lemma accepted_run_makes_one_request
    (requests_get : string -> result response)
    (read_csv : string -> result DataFrame) (s e m : pyval) :
  arguments_accepted s e m = true ->
  count_requests
    (trace_of (retrieve_data_from_usgs_api requests_get read_csv s e m)) = 1%nat.
Proof.
  intros Hok. unfold trace_of.
  destruct (requests_get (request_text s e m)) as [resp | ex] eqn:Hnet.
  - rewrite (run_answered requests_get read_csv s e m resp Hok Hnet).
    destruct (status_code resp =? 200); [| reflexivity].
    destruct (read_csv (text resp)) as [df | ex]; [| reflexivity].
    destruct (render_makes_no_request df [RequestsGet (request_text s e m)])
      as (tr & Htr & Hnone).
    rewrite Htr. simpl. unfold count_requests. simpl.
    f_equal. apply no_request_counted, Hnone.
  - rewrite (run_connection_failed requests_get read_csv s e m ex Hok Hnet).
    reflexivity.
Qed.

(** X2. One call of the routine makes one request when the arguments pass
    the checks and none when they do not, whatever the network answers and
    whatever the parser does: there is no second attempt. *)
Theorem one_request_when_accepted :
  forall (requests_get : string -> result response)
         (read_csv : string -> result DataFrame)
         (s e m : pyval),
    count_requests
      (trace_of (retrieve_data_from_usgs_api requests_get read_csv s e m)) =
    if arguments_accepted s e m then 1%nat else 0%nat.
Proof.
  intros net rc s e m.
  destruct (arguments_accepted s e m) eqn:Hok.
  - apply accepted_run_makes_one_request, Hok.
  - unfold trace_of. rewrite (run_rejected net rc s e m Hok). reflexivity.
Qed.

(** ** The number of earthquakes *)

Lemma render_starts_with_the_count (df : DataFrame) (t : list event) :
  exists tr,
    fst (render df t) =
      (t ++ [StColumns 2;
             StMetric "Number of Earthquakes" (PyInt (Z.of_nat (len df)))] ++
            tr)%list.
Proof.
  cbv [render bind emit lift ret].
  destruct (mean_magnitude df) as [avg | ex].
  2:{ simpl. repeat rewrite <- app_assoc. simpl. exists []. reflexivity. }
  destruct (getitem df "mag") as [mag | ex].
  2:{ simpl. repeat rewrite <- app_assoc. simpl. eexists. reflexivity. }
  destruct (pow2 mag) as [size | ex].
  2:{ simpl. repeat rewrite <- app_assoc. simpl. eexists. reflexivity. }
  destruct (scatter_geo df "latitude" "longitude" size ["place"; "mag"])
    as [fig | ex].
  2:{ simpl. repeat rewrite <- app_assoc. simpl. eexists. reflexivity. }
  destruct (select df displayed_columns) as [shown | ex];
    simpl; repeat rewrite <- app_assoc; simpl; eexists; reflexivity.
Qed.

(** X3. Once the body of a 200 answer is parsed, the number of rows of the
    frame is shown as "Number of Earthquakes" before any column is looked
    at: the metric is there whatever the columns of the frame are, also when
    the run then fails for a missing column. *)
Theorem count_is_shown_for_every_parsed_body :
  forall (requests_get : string -> result response)
         (read_csv : string -> result DataFrame)
         (s e m : pyval) (resp : response) (df : DataFrame),
    arguments_accepted s e m = true ->
    requests_get (request_text s e m) = Return resp ->
    status_code resp = 200 ->
    read_csv (text resp) = Return df ->
    exists tr,
      trace_of (retrieve_data_from_usgs_api requests_get read_csv s e m) =
        RequestsGet (request_text s e m)
        :: StColumns 2
        :: StMetric "Number of Earthquakes" (PyInt (Z.of_nat (len df)))
        :: tr.
Proof.
  intros net rc s e m resp df Hok Hnet Hstatus Hparse. unfold trace_of.
  rewrite (run_answered net rc s e m resp Hok Hnet), Hstatus, Hparse. simpl.
  destruct (render_starts_with_the_count df [RequestsGet (request_text s e m)])
    as [tr Htr].
  exists tr. rewrite Htr. reflexivity.
Qed.

Lemma count_is_shown_for_every_parsed_body_witness :
  exists tr,
    trace_of (retrieve_data_from_usgs_api (answer_with 200 "time")
                (parse_as [("time", ObjCol [Some "noon"; Some "dusk"])])
                (PyDate jan_1) (PyDate jan_2) PyNone) =
      RequestsGet (request_text (PyDate jan_1) (PyDate jan_2) PyNone)
      :: StColumns 2
      :: StMetric "Number of Earthquakes"
           (PyInt (Z.of_nat (len [("time", ObjCol [Some "noon"; Some "dusk"])])))
      :: tr.
Proof.
  apply (count_is_shown_for_every_parsed_body (answer_with 200 "time")
           (parse_as [("time", ObjCol [Some "noon"; Some "dusk"])])
           (PyDate jan_1) (PyDate jan_2) PyNone (mkresponse 200 "time"));
    reflexivity.
Defined.

(** ** The table and the link *)

(** A run of lines 62-95 that raises has rendered neither the table nor
    the link. *)
Lemma render_raises (df : DataFrame) (t tr : list event) (ex : exn) :
  render df t = (tr, Raise ex) ->
  exists tr',
    tr = (t ++ tr')%list /\
    forallb (fun ev => negb (is_table ev || is_link ev)) tr' = true.
Proof.
  cbv [render bind emit lift ret].
  destruct (mean_magnitude df) as [avg | ex1].
  2:{ intros H. injection H as <- _. repeat rewrite <- app_assoc.
      eexists. split; reflexivity. }
  destruct (getitem df "mag") as [mag | ex1].
  2:{ intros H. injection H as <- _. repeat rewrite <- app_assoc.
      eexists. split; reflexivity. }
  destruct (pow2 mag) as [size | ex1].
  2:{ intros H. injection H as <- _. repeat rewrite <- app_assoc.
      eexists. split; reflexivity. }
  destruct (scatter_geo df "latitude" "longitude" size ["place"; "mag"])
    as [fig | ex1].
  2:{ intros H. injection H as <- _. repeat rewrite <- app_assoc.
      eexists. split; reflexivity. }
  destruct (select df displayed_columns) as [shown | ex1].
  - discriminate.
  - intros H. injection H as <- _. repeat rewrite <- app_assoc.
    eexists. split; reflexivity.
Qed.

(** X4. In every run of the routine the table and the download link are
    rendered together or not at all, and they are rendered exactly when the
    run comes to its end and returns: a run that raises leaves neither a
    table nor a link on the page. *)
Theorem table_and_link_exactly_when_returning :
  forall (requests_get : string -> result response)
         (read_csv : string -> result DataFrame)
         (s e m : pyval),
    let tr := trace_of (retrieve_data_from_usgs_api requests_get read_csv s e m) in
    existsb is_table tr = existsb is_link tr /\
    (existsb is_link tr = true <->
     outcome_of (retrieve_data_from_usgs_api requests_get read_csv s e m) =
       Return None).
Proof.
  intros net rc s e m. unfold trace_of, outcome_of.
  destruct (arguments_accepted s e m) eqn:Hok.
  2:{ rewrite (run_rejected net rc s e m Hok). simpl.
      split; [reflexivity | split; discriminate]. }
  destruct (net (request_text s e m)) as [resp | ex] eqn:Hnet.
  2:{ rewrite (run_connection_failed net rc s e m ex Hok Hnet). simpl.
      split; [reflexivity | split; discriminate]. }
  rewrite (run_answered net rc s e m resp Hok Hnet).
  destruct (status_code resp =? 200);
    [| simpl; split; [reflexivity | split; discriminate]].
  destruct (rc (text resp)) as [df | ex];
    [| simpl; split; [reflexivity | split; discriminate]].
  destruct (render df [RequestsGet (request_text s e m)]) as [tr [v | ex]] eqn:Hrun.
  - destruct (render_returns df _ tr v Hrun) as (-> & avg & fig & shown & _ & _ & ->).
    simpl. split; [reflexivity | split; reflexivity].
  - destruct (render_raises df _ tr ex Hrun) as (tr' & -> & Hnone).
    simpl.
    assert (Ht : existsb is_table tr' = false /\ existsb is_link tr' = false).
    { clear Hrun. induction tr' as [| ev tr' IH]; simpl; [split; reflexivity |].
      simpl in Hnone. apply andb_true_iff in Hnone. destruct Hnone as [Hev Hrest].
      apply negb_true_iff, orb_false_iff in Hev. destruct Hev as [H1 H2].
      destruct (IH Hrest) as [I1 I2]. rewrite H1, H2, I1, I2.
      split; reflexivity. }
    destruct Ht as [-> ->]. split; [reflexivity | split; discriminate].
Qed.

(** ** A magnitude that is missing *)

(** X5. When a cell of a float [mag] column is missing (NaN), the count
    metric counts every row, the average is taken over the cells that are
    there, and the run stops at the chart with [ValueError], the squared
    magnitudes not being valid marker sizes: no chart, no table and no link
    are rendered. *)
Theorem missing_magnitude_stops_at_the_chart :
  forall (requests_get : string -> result response)
         (read_csv : string -> result DataFrame)
         (s e m : pyval) (resp : response) (df : DataFrame)
         (xs : list pyfloat),
    arguments_accepted s e m = true ->
    requests_get (request_text s e m) = Return resp ->
    status_code resp = 200 ->
    read_csv (text resp) = Return df ->
    get_col "mag" df = Some (FloatCol xs) ->
    forallb is_number xs = false ->
    run (retrieve_data_from_usgs_api requests_get read_csv s e m) =
      ([RequestsGet (request_text s e m);
        StColumns 2;
        StMetric "Number of Earthquakes" (PyInt (Z.of_nat (len df)));
        StMetric "Average Mag of Earthquakes"
          (PyFloat (np_round2 (mean_of (present xs))));
        StWrite ""; StWrite ""],
       Raise ValueError).
Proof.
  intros net rc s e m resp df xs Hok Hnet Hstatus Hparse Hmag Hnan.
  rewrite (run_answered net rc s e m resp Hok Hnet), Hstatus, Hparse. simpl.
  unfold render, bind, emit, lift, ret, mean_magnitude, getattr, getitem,
    scatter_geo.
  simpl. rewrite Hmag. simpl. rewrite forallb_is_number_square, Hnan.
  destruct (get_col "latitude" df); [| reflexivity].
  destruct (get_col "longitude" df); [| reflexivity].
  destruct (get_col "place" df); reflexivity.
Qed.

Lemma missing_magnitude_stops_at_the_chart_witness :
  run (retrieve_data_from_usgs_api (answer_with 200 "mag")
         (parse_as [("mag", FloatCol [FNum (51 # 10); FNaN; FNum (55 # 10)])])
         (PyDate jan_1) (PyDate jan_2) PyNone) =
    ([RequestsGet (request_text (PyDate jan_1) (PyDate jan_2) PyNone);
      StColumns 2;
      StMetric "Number of Earthquakes"
        (PyInt (Z.of_nat (len [("mag", FloatCol [FNum (51 # 10); FNaN; FNum (55 # 10)])])));
      StMetric "Average Mag of Earthquakes"
        (PyFloat (np_round2 (mean_of (present [FNum (51 # 10); FNaN; FNum (55 # 10)]))));
      StWrite ""; StWrite ""],
     Raise ValueError).
Proof.
  apply (missing_magnitude_stops_at_the_chart (answer_with 200 "mag")
           (parse_as [("mag", FloatCol [FNum (51 # 10); FNaN; FNum (55 # 10)])])
           (PyDate jan_1) (PyDate jan_2) PyNone (mkresponse 200 "mag"));
    reflexivity.
Defined.

(** ** The order of the columns in the body *)

Lemma get_col_perm (name : string) (df df' : DataFrame) :
  Permutation df df' -> NoDup (columns df) ->
  get_col name df' = get_col name df.
Proof.
  induction 1 as [| [n c] l l' Hp IH | [n1 c1] [n2 c2] l | l l' l'' H1 IH1 H2 IH2];
    simpl; intros Hnd.
  - reflexivity.
  - inversion Hnd; subst. destruct (String.eqb n name); [reflexivity | auto].
  - inversion Hnd as [| ? ? Hnotin _]; subst.
    destruct (String.eqb n1 name) eqn:E1, (String.eqb n2 name) eqn:E2;
      try reflexivity.
    apply String.eqb_eq in E1, E2. subst. exfalso. apply Hnotin. left. reflexivity.
  - rewrite IH2, IH1; trivial.
    unfold columns. apply (Permutation_NoDup (Permutation_map fst H1) Hnd).
Qed.

Lemma select_perm (names : list string) (df df' : DataFrame) :
  Permutation df df' -> NoDup (columns df) ->
  select df' names = select df names.
Proof.
  intros Hp Hnd. induction names as [| n names IH]; simpl; [reflexivity |].
  rewrite (get_col_perm n df df' Hp Hnd), IH. reflexivity.
Qed.

Lemma len_perm (df df' : DataFrame) :
  Permutation df df' -> rectangular df -> len df' = len df.
Proof.
  intros Hp [n Hn].
  assert (Hn' : Forall (fun nc => col_len (snd nc) = n) df').
  { rewrite Forall_forall in *. intros x Hx. apply Hn.
    apply (Permutation_in x (Permutation_sym Hp) Hx). }
  destruct df as [| [n1 c1] l], df' as [| [n2 c2] l']; simpl.
  - reflexivity.
  - apply Permutation_nil in Hp. discriminate.
  - apply Permutation_sym, Permutation_nil in Hp. discriminate.
  - inversion Hn; inversion Hn'; subst. simpl in *. congruence.
Qed.

Lemma render_perm (df df' : DataFrame) (t : list event) :
  Permutation df df' -> NoDup (columns df) -> rectangular df ->
  snd (render df' t) = snd (render df t) /\
  filter (fun ev => negb (is_link ev)) (fst (render df' t)) =
  filter (fun ev => negb (is_link ev)) (fst (render df t)).
Proof.
  intros Hp Hnd Hrect.
  cbv [render bind emit lift ret].
  unfold mean_magnitude, getattr, getitem, scatter_geo.
  rewrite (len_perm df df' Hp Hrect).
  rewrite !(get_col_perm _ df df' Hp Hnd), !(select_perm _ df df' Hp Hnd).
  destruct (get_col "mag" df) as [mag |]; [| split; reflexivity].
  destruct (mean mag) as [avg | ex]; [| split; reflexivity].
  destruct (pow2 mag) as [size | ex]; [| split; reflexivity].
  destruct (get_col "latitude" df) as [lat |]; [| split; reflexivity].
  destruct (get_col "longitude" df) as [lon |]; [| split; reflexivity].
  destruct (select df ["place"; "mag"]) as [cd | ex]; [| split; reflexivity].
  destruct (valid_sizes size); [| split; reflexivity].
  destruct (select df displayed_columns) as [shown | ex]; [| split; reflexivity].
  split; [reflexivity |].
  cbn [fst]. repeat rewrite filter_app. reflexivity.
Qed.

(** X7. What the routine shows does not depend on the order of the columns
    in the parsed body.  For two frames with the same columns in different
    orders (names all different, columns of equal length) the outcome is the
    same and so is everything rendered (the count, the average, the chart and
    the table, whose columns keep the order [place], [latitude], [longitude],
    [mag], [depth]) apart from the download link, which follows the order
    of the body. *)
Theorem column_order_changes_only_the_link :
  forall (requests_get : string -> result response)
         (read_csv read_csv' : string -> result DataFrame)
         (s e m : pyval) (resp : response) (df df' : DataFrame),
    arguments_accepted s e m = true ->
    requests_get (request_text s e m) = Return resp ->
    status_code resp = 200 ->
    read_csv (text resp) = Return df ->
    read_csv' (text resp) = Return df' ->
    Permutation df df' ->
    NoDup (columns df) ->
    rectangular df ->
    outcome_of (retrieve_data_from_usgs_api requests_get read_csv' s e m) =
      outcome_of (retrieve_data_from_usgs_api requests_get read_csv s e m) /\
    filter (fun ev => negb (is_link ev))
      (trace_of (retrieve_data_from_usgs_api requests_get read_csv' s e m)) =
    filter (fun ev => negb (is_link ev))
      (trace_of (retrieve_data_from_usgs_api requests_get read_csv s e m)).
Proof.
  intros net rc rc' s e m resp df df' Hok Hnet Hstatus Hparse Hparse'
         Hp Hnd Hrect.
  unfold outcome_of, trace_of.
  rewrite (run_answered net rc s e m resp Hok Hnet), Hstatus, Hparse.
  rewrite (run_answered net rc' s e m resp Hok Hnet), Hstatus, Hparse'.
  simpl. apply render_perm; assumption.
Qed.

Lemma column_order_changes_only_the_link_witness :
  outcome_of (retrieve_data_from_usgs_api (answer_with 200 "place,mag")
                (parse_as (rev three_quakes))
                (PyDate jan_1) (PyDate jan_2) PyNone) =
    outcome_of (retrieve_data_from_usgs_api (answer_with 200 "place,mag")
                  (parse_as three_quakes)
                  (PyDate jan_1) (PyDate jan_2) PyNone) /\
  filter (fun ev => negb (is_link ev))
    (trace_of (retrieve_data_from_usgs_api (answer_with 200 "place,mag")
                 (parse_as (rev three_quakes))
                 (PyDate jan_1) (PyDate jan_2) PyNone)) =
  filter (fun ev => negb (is_link ev))
    (trace_of (retrieve_data_from_usgs_api (answer_with 200 "place,mag")
                 (parse_as three_quakes)
                 (PyDate jan_1) (PyDate jan_2) PyNone)).
Proof.
  apply (column_order_changes_only_the_link (answer_with 200 "place,mag")
           (parse_as three_quakes) (parse_as (rev three_quakes))
           (PyDate jan_1) (PyDate jan_2) PyNone
           (mkresponse 200 "place,mag") three_quakes (rev three_quakes)).
  - reflexivity.
  - reflexivity.
  - reflexivity.
  - reflexivity.
  - reflexivity.
  - apply Permutation_rev.
  - simpl. repeat constructor; simpl; intuition discriminate.
  - exists 3%nat. repeat constructor.
Defined.

(** ** The page *)

Lemma framed_ret {A : Type} (a : A) : framed (ret a).
Proof. intros t. unfold ret. simpl. rewrite app_nil_r. reflexivity. Qed.

Lemma framed_raise {A : Type} (ex : exn) : framed (@raise A ex).
Proof. intros t. unfold raise. simpl. rewrite app_nil_r. reflexivity. Qed.

Lemma framed_lift {A : Type} (r : result A) : framed (lift r).
Proof. intros t. unfold lift. simpl. rewrite app_nil_r. reflexivity. Qed.

Lemma framed_emit (ev : event) : framed (emit ev).
Proof. intros t. reflexivity. Qed.

Lemma framed_assert (cond : bool) (msg : option string) : framed (assert_ cond msg).
Proof. destruct cond; [apply framed_ret | apply framed_raise]. Qed.

Lemma framed_bind {A B : Type} (c : M A) (k : A -> M B) :
  framed c -> (forall a, framed (k a)) -> framed (bind c k).
Proof.
  intros Hc Hk t. unfold bind. rewrite (Hc t).
  destruct (c []) as [tc [a | ex]]; simpl.
  - rewrite (Hk a (t ++ tc)%list), (Hk a tc). simpl.
    rewrite app_assoc. reflexivity.
  - reflexivity.
Qed.

Lemma routine_framed (requests_get : string -> result response)
    (read_csv : string -> result DataFrame) (s e m : pyval) :
  framed (retrieve_data_from_usgs_api requests_get read_csv s e m).
Proof.
  unfold retrieve_data_from_usgs_api.
  repeat first [ apply framed_bind; [| intros ?]
               | apply framed_assert | apply framed_emit
               | apply framed_lift | apply framed_ret
               | destruct (truthy m) ].
Qed.

(** X8. Every run of the page, whatever dates the two date inputs hold and
    whatever the slider holds, writes the title and two blank lines, then
    passes the checks of the routine and makes exactly one request; what
    follows is the run of the routine on the three values.  The request
    carries [minmagnitude] when the slider is not at zero and only the three
    other parameters when it is at zero (its lowest position). *)
Theorem page_always_makes_one_request :
  forall (requests_get : string -> result response)
         (read_csv : string -> result DataFrame)
         (start_date end_date : date) (mag : pyfloat),
    let routine :=
      retrieve_data_from_usgs_api requests_get read_csv
        (PyDate start_date) (PyDate end_date) (PyFloat mag) in
    let url := request_text (PyDate start_date) (PyDate end_date) (PyFloat mag) in
    trace_of (dashboard requests_get read_csv start_date end_date mag) =
      (StWrite page_title :: StWrite "" :: StWrite "" :: trace_of routine) /\
    outcome_of (dashboard requests_get read_csv start_date end_date mag) =
      outcome_of routine /\
    hd_error (trace_of routine) = Some (RequestsGet url) /\
    count_requests
      (trace_of (dashboard requests_get read_csv start_date end_date mag)) = 1%nat /\
    query_params url =
      if truthy (PyFloat mag)
      then [("format", "csv"); ("starttime", isoformat start_date);
            ("endtime", isoformat end_date); ("minmagnitude", repr_float mag)]
      else [("format", "csv"); ("starttime", isoformat start_date);
            ("endtime", isoformat end_date)].
Proof.
  intros net rc d1 d2 mag routine url.
  assert (Hok : arguments_accepted (PyDate d1) (PyDate d2) (PyFloat mag) = true).
  { unfold arguments_accepted. simpl. apply orb_true_iff. left.
    apply orb_true_r. }
  assert (Hrun : run (dashboard net rc d1 d2 mag) =
                 (StWrite page_title :: StWrite "" :: StWrite "" :: trace_of routine,
                  outcome_of routine)).
  { unfold run, dashboard, bind, emit. simpl.
    rewrite (routine_framed net rc (PyDate d1) (PyDate d2) (PyFloat mag)
               [StWrite page_title; StWrite ""; StWrite ""]).
    reflexivity. }
  unfold trace_of at 1, outcome_of at 1. rewrite Hrun. cbn [fst snd].
  split; [reflexivity |]. split; [reflexivity |].
  split; [apply first_event_is_the_request, Hok |].
  split.
  - unfold trace_of at 1. rewrite Hrun. cbn [fst].
    apply (accepted_run_makes_one_request net rc
             (PyDate d1) (PyDate d2) (PyFloat mag) Hok).
  - unfold url, request_text.
    destruct (truthy (PyFloat mag)); simpl format_value.
    + apply (proj2 (url_with_magnitude _ _ _ (plain_isoformat d1)
                      (plain_isoformat d2) (plain_repr_float mag))).
    + apply (proj2 (url_without_magnitude _ _ (plain_isoformat d1)
                      (plain_isoformat d2))).
Qed.

(** * Further properties of the export helper *)

(** ** The size and the characters of the payload *)

Lemma b64encode_length (bs : bytes) :
  length (b64encode bs) = (4 * ((length bs + 2) / 3))%nat.
Proof.
  induction bs as [| a | a b | a b c rest IH] using bytes_ind3.
  - reflexivity.
  - reflexivity.
  - reflexivity.
  - change (length (b64encode (a :: b :: c :: rest)))
      with (4 + length (b64encode rest))%nat.
    rewrite IH.
    replace (length (a :: b :: c :: rest) + 2)%nat
      with ((length rest + 2) + 1 * 3)%nat by (simpl; lia).
    rewrite Nat.div_add by discriminate. lia.
Qed.

Lemma index_from_mem (i : N) (c : ascii) (s : string) (n : N) :
  index_from i c s = Some n -> mem_char c s = true.
Proof.
  revert i. induction s as [| d s IH]; simpl; intros i H; [discriminate |].
  destruct (Ascii.eqb c d); [reflexivity |]. simpl. apply (IH _ H).
Qed.

Lemma indexed_is_text (c : ascii) (n : N) :
  b64_index c = Some n -> b64_text_char c = true.
Proof.
  intros H. unfold b64_text_char.
  rewrite (index_from_mem 0 c b64_alphabet n H). reflexivity.
Qed.

Lemma b64encode_text (bs : bytes) :
  Forall (fun ch => b64_text_char ch = true) (b64encode bs).
Proof.
  induction bs as [| a | a b | a b c rest IH] using bytes_ind3.
  - constructor.
  - pose proof (byte_facts a) as (H1 & _).
    pose proof (pair_facts a Ascii.zero) as (H2 & _).
    change (N_of_ascii Ascii.zero) with 0%N in *.
    simpl. repeat constructor; eapply indexed_is_text; eassumption.
  - pose proof (byte_facts a) as (H1 & _).
    pose proof (pair_facts a b) as (H2 & _).
    pose proof (pair_facts b Ascii.zero) as (_ & _ & H3 & _).
    change (N_of_ascii Ascii.zero) with 0%N in *.
    simpl. repeat constructor; eapply indexed_is_text; eassumption.
  - pose proof (byte_facts a) as (H1 & _).
    pose proof (pair_facts a b) as (H2 & _).
    pose proof (pair_facts b c) as (_ & _ & H3 & _).
    pose proof (byte_facts c) as (_ & _ & H4 & _).
    simpl. repeat constructor; try exact IH; eapply indexed_is_text; eassumption.
Qed.

Lemma all_chars_of_list (p : ascii -> bool) (cs : list ascii) :
  Forall (fun ch => p ch = true) cs ->
  all_chars p (string_of_list_ascii cs) = true.
Proof.
  induction 1 as [| ch cs Hch _ IH]; simpl; [reflexivity |].
  rewrite Hch, IH. reflexivity.
Qed.

Lemma length_string_of_list (cs : list ascii) :
  String.length (string_of_list_ascii cs) = length cs.
Proof. induction cs as [| c cs IH]; simpl; [reflexivity | rewrite IH; reflexivity]. Qed.

Lemma length_list_of_string (s : string) :
  length (list_ascii_of_string s) = String.length s.
Proof. induction s as [| c s IH]; simpl; [reflexivity | rewrite IH; reflexivity]. Qed.

(** X9. Whatever the frame holds (quotes, angle brackets, commas, line
    breaks in its cells), the link is the fixed opening of the anchor, a
    payload and the fixed closing, and the payload is made of letters,
    digits, [+], [/] and [=] only: nothing from the data can close the
    [href] attribute or the tag.  The payload has four characters for every
    three bytes of CSV text, rounded up. *)
Theorem link_payload_is_base64_text :
  forall df : DataFrame,
    exists payload : string,
      get_table_download_link df = link_prefix ++ payload ++ link_suffix /\
      all_chars b64_text_char payload = true /\
      String.length payload =
        (4 * ((String.length (to_csv df) + 2) / 3))%nat.
Proof.
  intros df. exists (decode (b64encode (encode (to_csv df)))).
  split; [reflexivity |]. split.
  - apply all_chars_of_list, b64encode_text.
  - unfold decode, encode.
    rewrite length_string_of_list, b64encode_length, length_list_of_string.
    reflexivity.
Qed.

Lemma list_of_string_inj (s1 s2 : string) :
  list_ascii_of_string s1 = list_ascii_of_string s2 -> s1 = s2.
Proof.
  intros H. rewrite <- (string_of_list_ascii_of_string s1),
    <- (string_of_list_ascii_of_string s2), H. reflexivity.
Qed.

(** X10. The link tells the CSV text: two frames with the same download
    link have the same CSV text, and two frames with different CSV texts
    have different links. *)
Theorem same_link_same_csv :
  forall df1 df2 : DataFrame,
    get_table_download_link df1 = get_table_download_link df2 <->
    to_csv df1 = to_csv df2.
Proof.
  intros df1 df2. split.
  - intros H.
    destruct (link_payload_decodes df1) as [Hp1 Hd1].
    destruct (link_payload_decodes df2) as [Hp2 Hd2].
    rewrite H, Hp2 in Hp1. injection Hp1 as Hpay.
    rewrite <- Hpay, Hd2 in Hd1. injection Hd1 as Hcsv.
    apply list_of_string_inj. symmetry. exact Hcsv.
  - intros H. unfold get_table_download_link. rewrite H. reflexivity.
Qed.

(** ** Reading the export back *)














Lemma render_framed (df : DataFrame) : framed (render df).
Proof.
  unfold render.
  repeat first [ apply framed_bind; [| intros ?]
               | apply framed_emit | apply framed_lift | apply framed_ret ].
Qed.

Lemma routine_tail_framed (df : DataFrame) (t : list event) :
  render df t = ((t ++ fst (render df []))%list, snd (render df [])).
Proof. apply render_framed. Qed.

(** * The filter is the service's *)

(** X12. The routine does not filter anything itself: the dates and the
    magnitude only go into the URL.  For two sets of accepted arguments, if
    the network gives the same answer to both requests, the two runs have
    the same outcome and render the same things after the request, rows
    below the asked magnitude included if the service sent them. *)
Theorem arguments_only_shape_the_request :
  forall (requests_get : string -> result response)
         (read_csv : string -> result DataFrame)
         (s1 e1 m1 s2 e2 m2 : pyval),
    arguments_accepted s1 e1 m1 = true ->
    arguments_accepted s2 e2 m2 = true ->
    requests_get (request_text s1 e1 m1) = requests_get (request_text s2 e2 m2) ->
    outcome_of (retrieve_data_from_usgs_api requests_get read_csv s1 e1 m1) =
      outcome_of (retrieve_data_from_usgs_api requests_get read_csv s2 e2 m2) /\
    tl (trace_of (retrieve_data_from_usgs_api requests_get read_csv s1 e1 m1)) =
      tl (trace_of (retrieve_data_from_usgs_api requests_get read_csv s2 e2 m2)).
Proof.
  intros net rc s1 e1 m1 s2 e2 m2 Hok1 Hok2 Hsame.
  unfold outcome_of, trace_of.
  destruct (net (request_text s2 e2 m2)) as [resp | ex] eqn:Hnet2.
  - rewrite (run_answered net rc s1 e1 m1 resp Hok1 Hsame).
    rewrite (run_answered net rc s2 e2 m2 resp Hok2 Hnet2).
    destruct (status_code resp =? 200); [| split; reflexivity].
    destruct (rc (text resp)) as [df | ex]; [| split; reflexivity].
    rewrite (routine_tail_framed df [RequestsGet (request_text s1 e1 m1)]).
    rewrite (routine_tail_framed df [RequestsGet (request_text s2 e2 m2)]).
    split; reflexivity.
  - rewrite (run_connection_failed net rc s1 e1 m1 ex Hok1 Hsame).
    rewrite (run_connection_failed net rc s2 e2 m2 ex Hok2 Hnet2).
    split; reflexivity.
Qed.

Lemma arguments_only_shape_the_request_witness :
  outcome_of (retrieve_data_from_usgs_api (answer_with 200 "time,latitude")
                (parse_as three_quakes)
                (PyDate jan_1) (PyDate jan_2) (PyFloat (FNum 6))) =
    outcome_of (retrieve_data_from_usgs_api (answer_with 200 "time,latitude")
                  (parse_as three_quakes)
                  (PyDate jan_2) (PyDate jan_1) PyNone) /\
  tl (trace_of (retrieve_data_from_usgs_api (answer_with 200 "time,latitude")
                  (parse_as three_quakes)
                  (PyDate jan_1) (PyDate jan_2) (PyFloat (FNum 6)))) =
    tl (trace_of (retrieve_data_from_usgs_api (answer_with 200 "time,latitude")
                    (parse_as three_quakes)
                    (PyDate jan_2) (PyDate jan_1) PyNone)).
Proof.
  apply (arguments_only_shape_the_request (answer_with 200 "time,latitude")
           (parse_as three_quakes)
           (PyDate jan_1) (PyDate jan_2) (PyFloat (FNum 6))
           (PyDate jan_2) (PyDate jan_1) PyNone);
    reflexivity.
Defined.
